(** * Time utility (stopwatch and countdown): a shallow embedding of script.js

    The development follows the classes of [script.js]:
    - [Js]: the handful of JavaScript string primitives used by the keypad
      ([toString], [padStart], [slice], [parseInt]);
    - [Scheduler]: the host's [setInterval] / [clearInterval];
    - [Input]: [CountdownInputManager] (keypad buffer);
    - [Stopwatch]: [StopwatchLogic];
    - [Countdown]: [CountdownLogic], wired to the keypad as in the bootstrap.

    Instants ([Date.now()]) and durations are integers ([Z]); the value
    buffered by the keypad is a natural number ([N]) because the source only
    ever assigns it [0], a sum of parsed digit groups, or [MAX_COUNTDOWN_MS].
    Every method is a total function on the object's fields; the calls made on
    collaborators (the display manager, the button's [textContent]) are kept
    as fields of the same record, so that what was shown and in which order
    can be stated. *)

From Stdlib Require Import ZArith NArith List String Ascii Bool Lia.
From Stdlib Require Import DecimalString.
From Stdlib Require Import DecimalN.
Import ListNotations.

Open Scope Z_scope.

(** ** Constants (script.js, lines 22-25) *)

Definition MS_PER_HOUR : Z := 3600000.
Definition MS_PER_MINUTE : Z := 60000.
Definition MS_PER_SECOND : Z := 1000.
Definition MAX_COUNTDOWN_MS : Z := 24 * MS_PER_HOUR - 1.

(** ** JavaScript string primitives *)

Module Js.

Open Scope string_scope.

(** [Number.prototype.toString()] on a non-negative integer. *)
Definition toString (n : N) : string :=
  NilZero.string_of_uint (N.to_uint n).

(** [n] copies of the character [c]. *)
Fixpoint fill (n : nat) (c : ascii) : string :=
  match n with
  | O => EmptyString
  | S k => String c (fill k c)
  end.

(** [s.padStart(len, c)] for a one-character pad string. *)
Definition padStart (len : nat) (c : ascii) (s : string) : string :=
  fill (len - String.length s) c ++ s.

(** Index resolution of [String.prototype.slice]: a negative index counts
    from the end, and the result is clipped to [0 .. len]. *)
Definition clip (len : nat) (i : Z) : nat :=
  if (i <? 0)%Z then Z.to_nat (Z.max (Z.of_nat len + i) 0)
  else Nat.min (Z.to_nat i) len.

(** [s.slice(from, to)]; [to = None] is the one-argument form. *)
Definition slice (from : Z) (to : option Z) (s : string) : string :=
  let len := String.length s in
  let a := clip len from in
  let b := match to with Some t => clip len t | None => len end in
  substring a (b - a) s.

Definition digit_value (c : ascii) : option N :=
  let k := N_of_ascii c in
  if ((48 <=? k) && (k <=? 57))%N then Some (k - 48)%N else None.

(** The test [/^\d$/]: exactly one character, a decimal digit. *)
Definition is_digit (s : string) : bool :=
  match s with
  | String c EmptyString =>
      match digit_value c with Some _ => true | None => false end
  | _ => false
  end.

(** Value of the longest prefix of decimal digits, most significant first. *)
Fixpoint parse_digits (acc : N) (s : string) : N :=
  match s with
  | EmptyString => acc
  | String c rest =>
      match digit_value c with
      | Some d => parse_digits (10 * acc + d)%N rest
      | None => acc
      end
  end.

(** [parseInt(s)] on the strings the keypad builds: these are non-empty runs
    of decimal digits (lemma [register_digits]), on which [parseInt] is
    the decimal value.  JavaScript answers [NaN] when [s] does not begin with
    a digit; that case is outside the integer model and yields [0] here. *)
Definition parseInt (s : string) : N := parse_digits 0%N s.

End Js.

(** ** The periodic-callback source: [setInterval] / [clearInterval] *)

Module Scheduler.

(** Handles are the numbers the host hands out; [live] lists the intervals
    that have been registered and not cleared yet. *)
Record t : Type := mk { live : list nat; fresh : nat }.

Definition empty : t := mk [] 0%nat.

(** [setInterval(callback, 10)]: registers a new interval, returns its handle. *)
Definition setInterval (s : t) : nat * t :=
  (fresh s, mk (fresh s :: live s) (S (fresh s))).

(** [clearInterval(h)]; [h = None] is [null], which clears nothing. *)
Definition clearInterval (h : option nat) (s : t) : t :=
  match h with
  | None => s
  | Some k => mk (filter (fun x => negb (Nat.eqb x k)) (live s)) (fresh s)
  end.

Definition is_live (k : nat) (s : t) : bool :=
  existsb (Nat.eqb k) (live s).

End Scheduler.

(** ** [CountdownInputManager]: the keypad buffer *)

Module Input.

Inductive warning : Type :=
| InvalidInput      (* the argument is not one decimal digit *)
| ExceedsLimit      (* hours > 23, minutes > 59 or seconds > 59 *)
| Clamped           (* inputMs > MAX_COUNTDOWN_MS, clamped *)
| NothingToSet.     (* Set pressed with inputMs = 0 *)

Record t : Type := mk {
  inputMs : N;              (* this.inputMs *)
  shown : list N;           (* arguments of displayManager.update, newest first *)
  warnings : list warning   (* console.warn calls, newest first *)
}.

(** The constructor: [inputMs = 0] and [displayManager.update(0)]. *)
Definition new : t := mk 0 [0%N] [].

Definition warn (w : warning) (m : t) : t :=
  mk (inputMs m) (shown m) (w :: warnings m).

(** The six-character string the source calls [currentNumString]:
    the buffered value in whole seconds, in decimal, padded with zeros. *)
Definition currentNumString (m : t) : string :=
  Js.padStart 6 "0"%char (Js.toString (inputMs m / Z.to_N MS_PER_SECOND)%N).

(** [newNumString]: the last five characters followed by the new digit. *)
Definition newNumString (digit : string) (m : t) : string :=
  (Js.slice (-5) None (currentNumString m) ++ digit)%string.

Definition newSeconds (digit : string) (m : t) : N :=
  Js.parseInt (Js.slice (-2) None (newNumString digit m)).
Definition newMinutes (digit : string) (m : t) : N :=
  Js.parseInt (Js.slice (-4) (Some (-2)) (newNumString digit m)).
Definition newHours (digit : string) (m : t) : N :=
  Js.parseInt (Js.slice 0 (Some (-4)) (newNumString digit m)).

(** [handleNumberInput(digit)], lines 279-318. *)
Definition handleNumberInput (digit : string) (m : t) : t :=
  if negb (Js.is_digit digit) then warn InvalidInput m
  else
    let s := newSeconds digit m in
    let mi := newMinutes digit m in
    let h := newHours digit m in
    if ((23 <? h) || (59 <? mi) || (59 <? s))%N then warn ExceedsLimit m
    else
      let v := (h * Z.to_N MS_PER_HOUR + mi * Z.to_N MS_PER_MINUTE
                + s * Z.to_N MS_PER_SECOND)%N in
      if (Z.to_N MAX_COUNTDOWN_MS <? v)%N
      then mk (Z.to_N MAX_COUNTDOWN_MS)
              (Z.to_N MAX_COUNTDOWN_MS :: shown m)
              (Clamped :: warnings m)
      else mk v (v :: shown m) (warnings m).

(** [clearInput()]: the buffer returns to zero and the display is cleared. *)
Definition clearInput (m : t) : t := mk 0 (0%N :: shown m) (warnings m).

(** [reset()] is [clearInput()]. *)
Definition reset (m : t) : t := clearInput m.

(** [triggerSet()]: the value handed to the registered callback, if any;
    with an empty buffer nothing is handed over and a warning is logged. *)
Definition triggerSet (m : t) : option N * t :=
  if (0 <? inputMs m)%N then (Some (inputMs m), m)
  else (None, warn NothingToSet m).

(** Key presses on the entry form. *)
Inductive key : Type :=
| Digit (d : string)
| ClearKey.

Definition press (k : key) (m : t) : t :=
  match k with
  | Digit d => handleNumberInput d m
  | ClearKey => clearInput m
  end.

Definition presses (ks : list key) (m : t) : t := fold_left (fun m k => press k m) ks m.

(** Pressing the digits of [ds] one after the other. *)
Definition type_digits (ds : list string) (m : t) : t :=
  presses (map Digit ds) m.

End Input.

(** ** States of the two timers, as the specification names them

    The classes keep no state field: the state is read off [isRunning], the
    button caption and the stored durations (see [Stopwatch.state] and
    [Countdown.state]). *)

Inductive TimerState : Type := Idle | Running | Paused | Finished.

(** ** [StopwatchLogic] *)

Module Stopwatch.

Record t : Type := mk {
  timer : option nat;     (* this.timer: null or the handle of setInterval *)
  elapsedTime : Z;        (* this.elapsedTime *)
  startTime : Z;          (* this.startTime *)
  isRunning : bool;       (* this.isRunning *)
  caption : string;       (* startPauseButton.textContent *)
  shown : list Z;         (* arguments of displayManager.update, newest first *)
  sched : Scheduler.t     (* the intervals this object registered *)
}.

(** The constructor; [text] is the caption the button has in the page. *)
Definition new (text : string) : t :=
  mk None 0 0 false text [] Scheduler.empty.

(** [start()], lines 190-204; [now] is the value of [Date.now()]. *)
Definition start (now : Z) (s : t) : t :=
  if isRunning s then s
  else
    let (h, sc) := Scheduler.setInterval (sched s) in
    mk (Some h) (elapsedTime s) (now - elapsedTime s) true "Pause" (shown s) sc.

(** The callback given to [setInterval], lines 199-202. *)
Definition callback (now : Z) (s : t) : t :=
  let e := now - startTime s in
  mk (timer s) e (startTime s) (isRunning s) (caption s) (e :: shown s) (sched s).

(** [pause()], lines 206-215.  It does not read the clock. *)
Definition pause (s : t) : t :=
  if negb (isRunning s) then s
  else
    mk (timer s) (elapsedTime s) (startTime s) false "Start" (shown s)
       (Scheduler.clearInterval (timer s) (sched s)).

(** [clear()], lines 217-229; [displayManager.clear()] is [update(0)]. *)
Definition clear (s : t) : t :=
  let p := pause s in
  mk (timer p) 0 (startTime p) (isRunning p) "Start" (0 :: shown p) (sched p).

Definition reset (s : t) : t := clear s.

Definition toggleStartPause (now : Z) (s : t) : t :=
  if isRunning s then pause s else start now s.

(** The host fires interval [h] at instant [now]: its callback runs if the
    interval has not been cleared. *)
Definition fire (h : nat) (now : Z) (s : t) : t :=
  if Scheduler.is_live h (sched s) then callback now s else s.

(** One tick of the host at instant [now]: every registered interval is due,
    oldest first; one cleared by an earlier callback no longer runs. *)
Definition tick (now : Z) (s : t) : t :=
  fold_left (fun s h => fire h now s) (rev (Scheduler.live (sched s))) s.

(** What can happen to a stopwatch.  Every event carries the instant at
    which it happens when the clock matters to it or to the specification;
    [pause()] itself never looks at its instant. *)
Inductive event : Type :=
| Start (now : Z)
| Pause (now : Z)
| Toggle (now : Z)
| Tick (now : Z)
| Clear
| Reset.

Definition step (s : t) (e : event) : t :=
  match e with
  | Start now => start now s
  | Pause _ => pause s
  | Toggle now => toggleStartPause now s
  | Tick now => tick now s
  | Clear => clear s
  | Reset => reset s
  end.

Definition run (evs : list event) (s : t) : t := fold_left step evs s.

(** The state of the specification's machine.  A stopwatch paused before any
    tick is the idle stopwatch: no method tells them apart. *)
Definition state (s : t) : TimerState :=
  if isRunning s then Running
  else if elapsedTime s =? 0 then Idle else Paused.

(** *** Interval bookkeeping, in the words of the specification

    A ledger follows the Running intervals of a history: [closed] is the
    total measured over the intervals already ended, [opened] holds the
    instant at which the current interval began and the instant up to which
    it has been measured. *)
Record ledger : Type := mkLedger { closed : Z; opened : option (Z * Z) }.

Definition total (l : ledger) : Z :=
  closed l + match opened l with Some (b, u) => u - b | None => 0 end.

Definition open_at (now : Z) (l : ledger) : ledger :=
  match opened l with
  | None => mkLedger (closed l) (Some (now, now))
  | Some _ => l
  end.

(** Specified: a Running interval lasts from its start() to its pause(). *)
Definition book_claimed (l : ledger) (e : event) : ledger :=
  match e with
  | Start now => open_at now l
  | Tick now =>
      match opened l with
      | Some (b, _) => mkLedger (closed l) (Some (b, now))
      | None => l
      end
  | Pause now =>
      match opened l with
      | Some (b, _) => mkLedger (closed l + (now - b)) None
      | None => l
      end
  | Toggle now =>
      match opened l with
      | Some (b, _) => mkLedger (closed l + (now - b)) None
      | None => open_at now l
      end
  | Clear | Reset => mkLedger 0 None
  end.

(** Measured: a Running interval counts from its start() to the last tick
    that fired in it, and for nothing if no tick fired. *)
Definition book_ticked (l : ledger) (e : event) : ledger :=
  match e with
  | Start now => open_at now l
  | Tick now =>
      match opened l with
      | Some (b, _) => mkLedger (closed l) (Some (b, now))
      | None => l
      end
  | Pause _ =>
      match opened l with
      | Some (b, u) => mkLedger (closed l + (u - b)) None
      | None => l
      end
  | Toggle now =>
      match opened l with
      | Some (b, u) => mkLedger (closed l + (u - b)) None
      | None => open_at now l
      end
  | Clear | Reset => mkLedger 0 None
  end.

Definition running_total (evs : list event) : Z :=
  total (fold_left book_claimed evs (mkLedger 0 None)).

Definition ticked_total (evs : list event) : Z :=
  total (fold_left book_ticked evs (mkLedger 0 None)).

(** The clock is monotone along a history: no event happens before [lo] nor
    before an earlier event. *)
Fixpoint monotone (lo : Z) (evs : list event) : Prop :=
  match evs with
  | [] => True
  | (Start now | Pause now | Toggle now | Tick now) :: rest =>
      lo <= now /\ monotone now rest
  | (Clear | Reset) :: rest => monotone lo rest
  end.

End Stopwatch.

(** ** [CountdownLogic] *)

Module Countdown.

Record t : Type := mk {
  timer : option nat;     (* this.timer *)
  initialTimeMs : Z;      (* this.initialTimeMs: the time set by the user *)
  remainingTime : Z;      (* this.remainingTime *)
  endTime : Z;            (* this.endTime: the target instant *)
  isRunning : bool;       (* this.isRunning *)
  caption : string;       (* startPauseContinueButton.textContent *)
  shown : list Z;         (* arguments of displayManager.update, newest first *)
  sched : Scheduler.t     (* the intervals this object registered *)
}.

(** The constructor; [text] is the caption the button has in the page. *)
Definition new (text : string) : t :=
  mk None 0 0 0 false text [] Scheduler.empty.

(** [_updateButtonState(state)] with ['start'], ['pause'], ['continue']. *)
Definition set_caption (text : string) (c : t) : t :=
  mk (timer c) (initialTimeMs c) (remainingTime c) (endTime c) (isRunning c)
     text (shown c) (sched c).

(** [displayManager.update(ms)]. *)
Definition update (ms : Z) (c : t) : t :=
  mk (timer c) (initialTimeMs c) (remainingTime c) (endTime c) (isRunning c)
     (caption c) (ms :: shown c) (sched c).

Definition set_remainingTime (ms : Z) (c : t) : t :=
  mk (timer c) (initialTimeMs c) ms (endTime c) (isRunning c)
     (caption c) (shown c) (sched c).

Definition set_initialTimeMs (ms : Z) (c : t) : t :=
  mk (timer c) ms (remainingTime c) (endTime c) (isRunning c)
     (caption c) (shown c) (sched c).

(** [setInitialTime(ms)], lines 400-410: no test on [ms], no test on
    [isRunning], and nothing is thrown. *)
Definition setInitialTime (ms : Z) (c : t) : t :=
  set_caption "Start"
    (update ms (set_remainingTime ms (set_initialTimeMs ms c))).

(** [pause()], lines 457-464.  It does not read the clock. *)
Definition pause (c : t) : t :=
  if negb (isRunning c) then c
  else
    mk (timer c) (initialTimeMs c) (remainingTime c) (endTime c) false
       "Continue" (shown c) (Scheduler.clearInterval (timer c) (sched c)).

(** [start()], lines 429-455, up to the registration of the interval. *)
Definition start (now : Z) (c : t) : t :=
  if isRunning c || (remainingTime c <=? 0) then c
  else
    let (h, sc) := Scheduler.setInterval (sched c) in
    mk (Some h) (initialTimeMs c) (remainingTime c) (now + remainingTime c)
       true "Pause" (shown c) sc.

(** The callback given to [setInterval], lines 439-453. *)
Definition callback (now : Z) (c : t) : t :=
  let c1 := set_remainingTime (endTime c - now) c in
  if remainingTime c1 <=? 0
  then set_caption "Start" (update 0 (pause (set_remainingTime 0 c1)))
  else update (remainingTime c1) c1.

(** [continueCountdown()], lines 466-473. *)
Definition continueCountdown (now : Z) (c : t) : t :=
  if isRunning c || (remainingTime c <=? 0) then c else start now c.

(** [clear()], lines 475-485. *)
Definition clear (c : t) : t :=
  let p := pause c in
  set_caption "Start"
    (update (initialTimeMs p) (set_remainingTime (initialTimeMs p) p)).

(** [reset()], lines 508-515. *)
Definition reset (c : t) : t :=
  set_caption "Start"
    (update 0 (set_remainingTime 0 (set_initialTimeMs 0 (pause c)))).

(** [toggleStartPauseContinue()], lines 412-427. *)
Definition toggleStartPauseContinue (now : Z) (c : t) : t :=
  if isRunning c then pause c
  else if String.eqb (caption c) "Start" then start now c
  else continueCountdown now c.

Definition fire (h : nat) (now : Z) (c : t) : t :=
  if Scheduler.is_live h (sched c) then callback now c else c.

(** One tick of the host at instant [now], as for the stopwatch. *)
Definition tick (now : Z) (c : t) : t :=
  fold_left (fun c h => fire h now c) (rev (Scheduler.live (sched c))) c.

Definition ticks (nows : list Z) (c : t) : t :=
  fold_left (fun c now => tick now c) nows c.

Inductive event : Type :=
| SetInitial (ms : Z)
| Start (now : Z)
| Pause (now : Z)
| Continue (now : Z)
| Toggle (now : Z)
| Tick (now : Z)
| Clear
| Reset.

Definition step (c : t) (e : event) : t :=
  match e with
  | SetInitial ms => setInitialTime ms c
  | Start now => start now c
  | Pause _ => pause c
  | Continue now => continueCountdown now c
  | Toggle now => toggleStartPauseContinue now c
  | Tick now => tick now c
  | Clear => clear c
  | Reset => reset c
  end.

Definition run (evs : list event) (c : t) : t := fold_left step evs c.

(** The durations a history hands to [setInitialTime] are non-negative. *)
Definition durations_ok (evs : list event) : Prop :=
  forall ms, In (SetInitial ms) evs -> 0 <= ms.

(** The state of the specification's machine.  Paused is recognised by the
    caption [Continue], which only [pause()] leaves behind; Finished is the
    stopped countdown that has run a configured duration down to zero. *)
Definition state (c : t) : TimerState :=
  if isRunning c then Running
  else if String.eqb (caption c) "Continue" then Paused
  else if (remainingTime c <=? 0) && (0 <? initialTimeMs c) then Finished
  else Idle.

End Countdown.

(** ** The wiring of the bootstrap (lines 683-691)

    The keypad's Set button calls [triggerSet()], whose callback is
    [countdownLogic.setInitialTime]. *)

Module App.

Record t : Type := mk { input : Input.t; countdown : Countdown.t }.

Definition pressSet (a : t) : t :=
  match Input.triggerSet (input a) with
  | (Some ms, m) => mk m (Countdown.setInitialTime (Z.of_N ms) (countdown a))
  | (None, m) => mk m (countdown a)
  end.

(** What the user and the host can do on the countdown's two forms: the
    keypad and its Set button, the Start/Pause/Continue and Clear buttons of
    the display form, a tick of the host, opening the entry form
    ([countdownInputManager.reset()]) and going back to the selection screen
    (the [screenChange] listener resets both objects). *)
Inductive event : Type :=
| Key (k : Input.key)
| SetButton
| StartPauseContinueButton (now : Z)
| ClearButton
| Tick (now : Z)
| OpenEntryForm
| BackToSelection.

Definition step (a : t) (e : event) : t :=
  match e with
  | Key k => mk (Input.press k (input a)) (countdown a)
  | SetButton => pressSet a
  | StartPauseContinueButton now =>
      mk (input a) (Countdown.toggleStartPauseContinue now (countdown a))
  | ClearButton => mk (input a) (Countdown.clear (countdown a))
  | Tick now => mk (input a) (Countdown.tick now (countdown a))
  | OpenEntryForm => mk (Input.reset (input a)) (countdown a)
  | BackToSelection => mk (Input.reset (input a)) (Countdown.reset (countdown a))
  end.

Definition run (evs : list event) (a : t) : t := fold_left step evs a.

(** The two objects as the bootstrap creates them. *)
Definition new (text : string) : t := mk Input.new (Countdown.new text).

End App.

(** ** [TimeFormatter] (lines 65-99)

    The durations formatted are the integers the timers and the keypad hand
    over; [%] is JavaScript's remainder, which takes the sign of the
    dividend ([Z.rem]), and [Math.floor] of a quotient is [Z.div]. *)

Module TimeFormatter.

(** [String(n)] on an integer. *)
Definition toString (z : Z) : string :=
  if z <? 0 then ("-" ++ Js.toString (Z.to_N (- z)))%string
  else Js.toString (Z.to_N z).

(** The three units [formatTime] computes: hours, minutes, seconds. *)
Definition units (ms : Z) : Z * Z * Z :=
  let totalSeconds := ms / MS_PER_SECOND in
  let hours := totalSeconds / 3600 in
  let minutes := Z.rem totalSeconds 3600 / 60 in
  let seconds := Z.rem totalSeconds 60 in
  (hours, minutes, seconds).

(** [parts.join(':')]. *)
Fixpoint join (parts : list string) : string :=
  match parts with
  | [] => EmptyString
  | [p] => p
  | p :: rest => (p ++ ":" ++ join rest)%string
  end.

(** [formatTime(ms)]: each unit padded to two characters, joined by colons. *)
Definition formatTime (ms : Z) : string :=
  let '(hours, minutes, seconds) := units ms in
  join (map (fun unit => Js.padStart 2 "0" (toString unit))
          [hours; minutes; seconds]).

(** [formatMilliseconds(ms)]. *)
Definition formatMilliseconds (ms : Z) : string :=
  Js.padStart 3 "0" (toString (Z.rem ms 1000)).

End TimeFormatter.

(** ** [DisplayManager] (lines 105-142) *)

Module Display.

Open Scope string_scope.

(** The text of the four elements the manager writes to. *)
Record t : Type := mk {
  hours : string;          (* .hours *)
  minutes : string;        (* .minutes *)
  seconds : string;        (* .seconds *)
  milliseconds : string    (* msDisplayElement *)
}.

(** [s.split(':')]: the pieces between the colons; never an empty array. *)
Fixpoint split (s : string) : list string :=
  match s with
  | EmptyString => [EmptyString]
  | String c rest =>
      if Ascii.eqb c ":"%char then EmptyString :: split rest
      else match split rest with
           | piece :: pieces => String c piece :: pieces
           | [] => [String c EmptyString]
           end
  end.

(** [update(ms)]: the formatted time is split again at the colons and the
    first three pieces are written out; a piece that is missing would be
    written as the empty text. *)
Definition update (ms : Z) (d : t) : t :=
  let pieces := split (TimeFormatter.formatTime ms) in
  mk (nth 0 pieces "") (nth 1 pieces "") (nth 2 pieces "")
     (TimeFormatter.formatMilliseconds ms).

(** [clear()] is [update(0)]. *)
Definition clear (d : t) : t := update 0 d.

(** The display after the updates recorded by a timer, newest first. *)
Definition replay (updates : list Z) (d : t) : t :=
  fold_right update d updates.

End Display.

(** ** [AppRouter] (lines 523-588)

    A screen is an element, of which only the class list matters. *)

Module Router.

Open Scope string_scope.

Definition classList : Type := list string.

(** [classList.add(c)] and [classList.remove(c)]. *)
Definition add (c : string) (l : classList) : classList :=
  if existsb (String.eqb c) l then l else (l ++ [c])%list.

Definition remove (c : string) (l : classList) : classList :=
  filter (fun x => negb (String.eqb x c)) l.

Record t : Type := mk {
  screens : list (string * classList);   (* this.screens: id -> element *)
  currentScreenId : string               (* this.currentScreenId *)
}.

(** What [this.screens[id]] evaluates to: one of the screens, a member the
    object inherits from [Object.prototype] (truthy, but not an element: it
    has no class list), or [undefined]. *)
Inductive member : Type :=
| Screen (classes : classList)
| Inherited.

Definition Object_prototype : list string :=
  ["constructor"; "hasOwnProperty"; "isPrototypeOf"; "propertyIsEnumerable";
   "toLocaleString"; "toString"; "valueOf"; "__proto__";
   "__defineGetter__"; "__defineSetter__"; "__lookupGetter__";
   "__lookupSetter__"].

Fixpoint own (id : string) (l : list (string * classList)) : option classList :=
  match l with
  | [] => None
  | (k, cl) :: rest => if String.eqb k id then Some cl else own id rest
  end.

Definition get (id : string) (r : t) : option member :=
  match own id (screens r) with
  | Some cl => Some (Screen cl)
  | None => if existsb (String.eqb id) Object_prototype then Some Inherited
            else None
  end.

(** The class list of screen [id] becomes [cl]. *)
Fixpoint put (id : string) (cl : classList) (l : list (string * classList))
  : list (string * classList) :=
  match l with
  | [] => []
  | (k, old) :: rest =>
      if String.eqb k id then (k, cl) :: rest else (k, old) :: put id cl rest
  end.

(** The first half of [showScreen]: the current screen, if there is one and
    it is not the target, loses [active] and gains [hidden].  [None] is the
    [TypeError] raised when the current member has no class list. *)
Definition hideCurrent (id : string) (r : t) : option t :=
  if negb (String.eqb (currentScreenId r) "")
     && negb (String.eqb (currentScreenId r) id)
  then match get (currentScreenId r) r with
       | Some (Screen cl) =>
           Some (mk (put (currentScreenId r)
                       (add "hidden" (remove "active" cl)) (screens r))
                    (currentScreenId r))
       | Some Inherited => None
       | None => Some r
       end
  else Some r.

(** [showScreen(screenId)], lines 540-570, with the default (empty)
    [onTransitionEnd].  An exception raised inside the [try] is caught: what
    was done before it stays done. *)
Definition showScreen (id : string) (r : t) : t :=
  match get id r with
  | None => r
  | Some _ =>
      match hideCurrent id r with
      | None => r
      | Some r1 =>
          match get id r1 with
          | Some (Screen cl) =>
              mk (put id (add "active" (remove "hidden" cl)) (screens r1)) id
          | _ => r1
          end
      end
  end.

(** The constructor: it refuses an empty table of screens, then shows the
    selection screen. *)
Definition new (table : list (string * classList)) : option t :=
  match table with
  | [] => None
  | _ => Some (showScreen "selection-screen" (mk table "selection-screen"))
  end.

Definition is_active (id : string) (r : t) : bool :=
  match own id (screens r) with
  | Some cl => existsb (String.eqb "active") cl
  | None => false
  end.

Definition is_hidden (id : string) (r : t) : bool :=
  match own id (screens r) with
  | Some cl => existsb (String.eqb "hidden") cl
  | None => false
  end.

Definition shows (r : t) (ids : list string) : t :=
  fold_left (fun r id => showScreen id r) ids r.

End Router.

(** ** The page: the objects of the bootstrap and its listeners (lines 592-711) *)

Module Page.

Open Scope string_scope.

Record t : Type := mk {
  router : Router.t;
  stopwatch : Stopwatch.t;
  input : Input.t;
  countdown : Countdown.t
}.

(** What the user and the host can do.  [Back target] is a click on a back
    button whose [data-target-screen] is [target] ([None] when the attribute
    is absent); the two ticks are the host firing the intervals of the
    stopwatch and of the countdown. *)
Inductive event : Type :=
| StopwatchOption
| CountdownOption
| StopwatchStartPause (now : Z)
| StopwatchClear
| Key (k : Input.key)
| SetButton
| CountdownStartPauseContinue (now : Z)
| CountdownClear
| Back (target : option string)
| StopwatchTick (now : Z)
| CountdownTick (now : Z).

(** [button.dataset.targetScreen || 'selection-screen']. *)
Definition targetScreenId (target : option string) : string :=
  match target with
  | Some id => if String.eqb id "" then "selection-screen" else id
  | None => "selection-screen"
  end.

(** The [screenChange] listener, lines 694-703. *)
Definition screenChange (screenId : string) (p : t) : t :=
  if String.eqb screenId "selection-screen"
  then mk (router p) (Stopwatch.reset (stopwatch p))
          (Input.reset (input p)) (Countdown.reset (countdown p))
  else p.

Definition step (p : t) (e : event) : t :=
  match e with
  | StopwatchOption =>
      mk (Router.showScreen "stopwatch-form" (router p))
         (Stopwatch.reset (stopwatch p)) (input p) (countdown p)
  | CountdownOption =>
      mk (Router.showScreen "countdown-input-form" (router p))
         (stopwatch p) (Input.reset (input p)) (countdown p)
  | StopwatchStartPause now =>
      mk (router p) (Stopwatch.toggleStartPause now (stopwatch p))
         (input p) (countdown p)
  | StopwatchClear =>
      mk (router p) (Stopwatch.clear (stopwatch p)) (input p) (countdown p)
  | Key k =>
      mk (router p) (stopwatch p) (Input.press k (input p)) (countdown p)
  | SetButton =>
      match Input.triggerSet (input p) with
      | (Some ms, m) =>
          mk (Router.showScreen "countdown-display-form" (router p))
             (stopwatch p) m
             (Countdown.setInitialTime (Z.of_N ms) (countdown p))
      | (None, m) => mk (router p) (stopwatch p) m (countdown p)
      end
  | CountdownStartPauseContinue now =>
      mk (router p) (stopwatch p) (input p)
         (Countdown.toggleStartPauseContinue now (countdown p))
  | CountdownClear =>
      mk (router p) (stopwatch p) (input p) (Countdown.clear (countdown p))
  | Back target =>
      screenChange (targetScreenId target)
        (mk (Router.showScreen (targetScreenId target) (router p))
            (stopwatch p) (input p) (countdown p))
  | StopwatchTick now =>
      mk (router p) (Stopwatch.tick now (stopwatch p)) (input p) (countdown p)
  | CountdownTick now =>
      mk (router p) (stopwatch p) (input p) (Countdown.tick now (countdown p))
  end.

Definition run (evs : list event) (p : t) : t := fold_left step evs p.

(** The page once the bootstrap has run, given the router it built and the
    captions the two buttons have in the markup. *)
Definition new (r : Router.t) (swText cdText : string) : t :=
  mk r (Stopwatch.new swText) Input.new (Countdown.new cdText).

End Page.

(** ** Auxiliary notions used by the statements *)

(** A digit press is accepted when it passes both tests of
    [handleNumberInput]: one decimal digit, and a valid HH/MM/SS triple. *)
Definition accepts (digit : string) (m : Input.t) : bool :=
  Js.is_digit digit
  && negb ((23 <? Input.newHours digit m) || (59 <? Input.newMinutes digit m)
           || (59 <? Input.newSeconds digit m))%N.

(** The buffered value of the entry [HH:MM:SS], in milliseconds. *)
Definition hhmmss (h m s : Z) : Z := (h * 3600 + m * 60 + s) * 1000.

(** Strings made of decimal digits only. *)
Fixpoint all_digits (s : string) : bool :=
  match s with
  | EmptyString => true
  | String c rest =>
      match Js.digit_value c with
      | Some _ => all_digits rest
      | None => false
      end
  end.

(** Strings without a colon. *)
Fixpoint plain (s : string) : bool :=
  match s with
  | EmptyString => true
  | String c rest => negb (Ascii.eqb c ":") && plain rest
  end.

(** A unit as [formatTime] writes it, and the millisecond field. *)
Definition pad2 (unit : Z) : string :=
  Js.padStart 2 "0" (TimeFormatter.toString unit).

Definition pad3 (unit : Z) : string :=
  Js.padStart 3 "0" (TimeFormatter.toString unit).

(** Values shown, newest first, that never decreased over time, and that
    never increased over time. *)
Fixpoint descending (l : list Z) : Prop :=
  match l with
  | a :: (b :: _) as rest => b <= a /\ descending rest
  | _ => True
  end.

Fixpoint ascending (l : list Z) : Prop :=
  match l with
  | a :: (b :: _) as rest => a <= b /\ ascending rest
  | _ => True
  end.

(** Stopwatch events other than clearing. *)
Definition sw_keeps (e : Stopwatch.event) : bool :=
  match e with
  | Stopwatch.Clear | Stopwatch.Reset => false
  | _ => true
  end.

(** Countdown events that configure nothing, and those that only run,
    pause or tick it. *)
Definition cd_no_set (e : Countdown.event) : bool :=
  match e with
  | Countdown.SetInitial _ => false
  | _ => true
  end.

Definition cd_counting (e : Countdown.event) : bool :=
  match e with
  | Countdown.SetInitial _ | Countdown.Clear | Countdown.Reset => false
  | _ => true
  end.

(** The clock is monotone along a countdown's history. *)
Fixpoint cd_monotone (lo : Z) (evs : list Countdown.event) : Prop :=
  match evs with
  | [] => True
  | (Countdown.Start now | Countdown.Pause now | Countdown.Continue now
     | Countdown.Toggle now | Countdown.Tick now) :: rest =>
      lo <= now /\ cd_monotone now rest
  | _ :: rest => cd_monotone lo rest
  end.

(** The stopwatch shows what it holds, never less than before, and its
    anchor lies in the past. *)
Definition sw_steady (lo : Z) (s : Stopwatch.t) : Prop :=
  descending (Stopwatch.shown s)
  /\ hd 0 (Stopwatch.shown s) = Stopwatch.elapsedTime s
  /\ (Stopwatch.isRunning s = true ->
      Stopwatch.startTime s + Stopwatch.elapsedTime s <= lo).

(** The button of the stopwatch says what a click will do. *)
Definition sw_captioned (text : string) (s : Stopwatch.t) : Prop :=
  if Stopwatch.isRunning s then Stopwatch.caption s = "Pause"%string
  else Stopwatch.caption s = "Start"%string \/ Stopwatch.caption s = text.

(** The countdown holds a duration between zero and the configured one,
    itself at most [top], and its deadline is no further than that away. *)
Definition cd_bounded (top lo : Z) (c : Countdown.t) : Prop :=
  0 <= Countdown.remainingTime c <= Countdown.initialTimeMs c
  /\ Countdown.initialTimeMs c <= top
  /\ (Countdown.isRunning c = true ->
      Countdown.endTime c - Countdown.remainingTime c <= lo).

(** The countdown shows what it holds, never more than before. *)
Definition cd_steady (lo : Z) (c : Countdown.t) : Prop :=
  ascending (Countdown.shown c)
  /\ hd 0 (Countdown.shown c) = Countdown.remainingTime c
  /\ 0 <= Countdown.remainingTime c
  /\ (Countdown.isRunning c = true ->
      Countdown.endTime c - Countdown.remainingTime c <= lo).

(** The instant up to which the clock has advanced after an event. *)
Definition cd_clock (lo : Z) (e : Countdown.event) : Z :=
  match e with
  | Countdown.Start now | Countdown.Pause now | Countdown.Continue now
  | Countdown.Toggle now | Countdown.Tick now => now
  | _ => lo
  end.

(** A class list has a class. *)
Definition has (c : string) (l : Router.classList) : bool :=
  existsb (String.eqb c) l.

(** Only the current screen may be active, the current screen is the
    selection screen or one of the table, and no screen of the table has the
    empty id (which [showScreen] would take for no current screen). *)
Definition router_ok (r : Router.t) : Prop :=
  (forall id, Router.is_active id r = true -> id = Router.currentScreenId r)
  /\ (Router.currentScreenId r = "selection-screen"%string
      \/ Router.own (Router.currentScreenId r) (Router.screens r) <> None)
  /\ Router.own "" (Router.screens r) = None.

(** The values the countdown can have been configured with from the keypad:
    nothing, or a whole number of seconds from 1 s to 23:59:59. *)
Definition keypad_duration (ms : Z) : Prop :=
  ms = 0 \/ (1000 <= ms <= 86399000 /\ ms mod 1000 = 0).

(** Scheduler discipline of a stopwatch: while running it holds exactly the
    interval stored in [timer]; while stopped it holds none. *)
Definition sw_wf (s : Stopwatch.t) : Prop :=
  if Stopwatch.isRunning s
  then exists h, Stopwatch.timer s = Some h
                 /\ Scheduler.live (Stopwatch.sched s) = [h]
  else Scheduler.live (Stopwatch.sched s) = [].

(** The same discipline for a countdown. *)
Definition cd_wf (c : Countdown.t) : Prop :=
  if Countdown.isRunning c
  then exists h, Countdown.timer c = Some h
                 /\ Scheduler.live (Countdown.sched c) = [h]
  else Scheduler.live (Countdown.sched c) = [].

(** A ledger describes a stopwatch: the closed total is what the stopwatch
    has accumulated, and the open interval fixes its anchor. *)
Definition sw_booked (s : Stopwatch.t) (l : Stopwatch.ledger) : Prop :=
  match Stopwatch.opened l with
  | None =>
      Stopwatch.isRunning s = false
      /\ Stopwatch.elapsedTime s = Stopwatch.closed l
  | Some (b, u) =>
      Stopwatch.isRunning s = true
      /\ Stopwatch.startTime s = b - Stopwatch.closed l
      /\ Stopwatch.elapsedTime s = Stopwatch.closed l + (u - b)
  end.

(** What a stopwatch has shown is non-negative, and so will be what it shows
    at any instant from [lo] on. *)
Definition sw_nonneg (lo : Z) (s : Stopwatch.t) : Prop :=
  0 <= Stopwatch.elapsedTime s
  /\ Forall (fun v => 0 <= v) (Stopwatch.shown s)
  /\ (Stopwatch.isRunning s = true -> Stopwatch.startTime s <= lo).

Definition cd_nonneg (c : Countdown.t) : Prop :=
  0 <= Countdown.initialTimeMs c
  /\ Forall (fun v => 0 <= v) (Countdown.shown c).

(** * Facts about the keypad buffer *)

Section JsFacts.

Import Js.

Lemma length_app (s1 s2 : string) :
  String.length (s1 ++ s2) = (String.length s1 + String.length s2)%nat.
Proof. induction s1 as [|c s1 IH]; cbn; [reflexivity | now rewrite IH]. Qed.

Lemma length_fill (n : nat) (c : ascii) : String.length (fill n c) = n.
Proof. induction n as [|n IH]; cbn; [reflexivity | now rewrite IH]. Qed.

Lemma length_substring (s : string) :
  forall a n, (a + n <= String.length s)%nat ->
              String.length (substring a n s) = n.
Proof.
  induction s as [|c s IH]; intros a n H; cbn in H.
  - assert (a = 0%nat /\ n = 0%nat) as [-> ->] by lia. reflexivity.
  - destruct a as [|a]; cbn.
    + destruct n as [|n]; [reflexivity|]. cbn. rewrite (IH 0%nat n); lia.
    + apply IH. lia.
Qed.

Lemma all_digits_app (s1 s2 : string) :
  all_digits s1 = true -> all_digits s2 = true -> all_digits (s1 ++ s2) = true.
Proof.
  intros H1 H2. induction s1 as [|c s1 IH]; cbn in *; [exact H2|].
  destruct (digit_value c); [auto|discriminate].
Qed.

Lemma all_digits_fill (n : nat) : all_digits (fill n "0") = true.
Proof. induction n as [|n IH]; [reflexivity | exact IH]. Qed.

Lemma all_digits_substring (s : string) :
  forall a n, all_digits s = true -> all_digits (substring a n s) = true.
Proof.
  induction s as [|c s IH]; intros a n H.
  - destruct a, n; reflexivity.
  - cbn in H. destruct (digit_value c) eqn:D; [|discriminate].
    destruct a as [|a]; cbn.
    + destruct n as [|n]; [reflexivity|]. cbn. rewrite D. now apply IH.
    + now apply IH.
Qed.

Lemma all_digits_uint (d : Decimal.uint) :
  all_digits (NilEmpty.string_of_uint d) = true.
Proof. induction d; cbn; auto. Qed.

(** The decimal writing of a number is a run of digits. *)
Lemma all_digits_toString (n : N) : all_digits (toString n) = true.
Proof.
  unfold toString, NilZero.string_of_uint.
  destruct (N.to_uint n) eqn:E; try reflexivity;
    rewrite <- E; pose proof (all_digits_uint (N.to_uint n)) as H;
    rewrite E in *; exact H.
Qed.

Lemma padStart_spec (s : string) :
  all_digits s = true ->
  (6 <= String.length (padStart 6 "0" s))%nat
  /\ all_digits (padStart 6 "0" s) = true.
Proof.
  intros H. unfold padStart. split.
  - rewrite length_app, length_fill. lia.
  - apply all_digits_app; [apply all_digits_fill | exact H].
Qed.

(** On a string of at least five characters, [slice(-5)] is its last five. *)
Lemma slice_last5 (s : string) :
  (5 <= String.length s)%nat ->
  slice (-5) None s = substring (String.length s - 5) 5 s.
Proof.
  intros H. unfold slice, clip. cbn [Z.ltb Z.compare].
  replace (Z.to_nat (Z.max (Z.of_nat (String.length s) + -5) 0))
    with (String.length s - 5)%nat by lia.
  f_equal. lia.
Qed.

(** The three fields of a six-character string. *)
Lemma slice_fields (r : string) :
  String.length r = 6%nat ->
  slice 0 (Some (-4)) r = substring 0 2 r
  /\ slice (-4) (Some (-2)) r = substring 2 2 r
  /\ slice (-2) None r = substring 4 2 r.
Proof. intros H. unfold slice. rewrite H. repeat split. Qed.

End JsFacts.

Section InputFacts.

Import Input.

(** The string the three fields are cut from has six decimal digits, so
    each field is a pair of digits and [parseInt] reads a number off it. *)
Lemma register_digits (d : string) (m : t) :
  Js.is_digit d = true ->
  let r := newNumString d m in
  String.length r = 6%nat /\ all_digits r = true
  /\ Js.slice 0 (Some (-4)) r = substring 0 2 r
  /\ Js.slice (-4) (Some (-2)) r = substring 2 2 r
  /\ Js.slice (-2) None r = substring 4 2 r.
Proof.
  intros D r.
  destruct (padStart_spec _ (all_digits_toString (inputMs m / Z.to_N MS_PER_SECOND)))
    as [L A]. fold (currentNumString m) in L, A.
  assert (Hd : String.length d = 1%nat /\ all_digits d = true).
  { destruct d as [|c [|c' d']]; cbn in D; try discriminate.
    cbn. destruct (Js.digit_value c); [auto|discriminate]. }
  assert (Hr : String.length r = 6%nat).
  { unfold r, newNumString. rewrite slice_last5 by lia.
    rewrite length_app, length_substring by lia. lia. }
  split; [exact Hr|]. split; [|now apply slice_fields].
  unfold r, newNumString. rewrite slice_last5 by lia.
  apply all_digits_app; [now apply all_digits_substring | tauto].
Qed.

Lemma constants_N :
  Z.to_N MS_PER_HOUR = 3600000%N /\ Z.to_N MS_PER_MINUTE = 60000%N
  /\ Z.to_N MS_PER_SECOND = 1000%N /\ Z.to_N MAX_COUNTDOWN_MS = 86399999%N.
Proof. repeat split; reflexivity. Qed.

(** The value stored by an accepted press, before the clamping test. *)
Lemma accepted_value_bounds (h mi s : N) :
  ((23 <? h) || (59 <? mi) || (59 <? s) = false)%N ->
  let v := (h * 3600000 + mi * 60000 + s * 1000)%N in
  (v mod 1000 = 0 /\ v <= 86399000)%N.
Proof.
  intros H v.
  apply orb_false_iff in H as [H Hs]. apply orb_false_iff in H as [Hh Hm].
  apply N.ltb_ge in Hh, Hm, Hs.
  split.
  - replace v with ((h * 3600 + mi * 60 + s) * 1000)%N by (unfold v; lia).
    apply N.Div0.mod_mul.
  - unfold v. lia.
Qed.

Lemma handleNumberInput_accepted (d : string) (m : t) :
  accepts d m = true ->
  handleNumberInput d m =
    let v := (newHours d m * 3600000 + newMinutes d m * 60000
              + newSeconds d m * 1000)%N in
    mk v (v :: shown m) (warnings m).
Proof.
  unfold accepts, handleNumberInput. intros H.
  apply andb_true_iff in H as [Hd Hv]. apply negb_true_iff in Hv.
  rewrite Hd, Hv. cbn [negb].
  destruct constants_N as (-> & -> & -> & ->).
  pose proof (accepted_value_bounds _ _ _ Hv) as [_ Hle]. cbn zeta in Hle.
  replace (_ <? _)%N with false; [reflexivity|].
  symmetry. apply N.ltb_ge. lia.
Qed.

Lemma handleNumberInput_rejected (d : string) (m : t) :
  accepts d m = false ->
  inputMs (handleNumberInput d m) = inputMs m
  /\ shown (handleNumberInput d m) = shown m.
Proof.
  unfold accepts, handleNumberInput. intros H.
  destruct (Js.is_digit d); cbn [negb andb] in *; [|split; reflexivity].
  apply negb_false_iff in H. rewrite H. split; reflexivity.
Qed.

(** No press and no clear ever adds the clamping warning. *)
Lemma press_warnings (k : key) (m : t) :
  ~ In Clamped (warnings m) -> ~ In Clamped (warnings (press k m)).
Proof.
  intros Hm. destruct k as [d|]; cbn [press]; [|exact Hm].
  destruct (accepts d m) eqn:Ha.
  - rewrite (handleNumberInput_accepted _ _ Ha). exact Hm.
  - unfold accepts in Ha. unfold handleNumberInput.
    destruct (Js.is_digit d); cbn [negb andb] in *.
    + apply negb_false_iff in Ha. rewrite Ha. cbn. intros [H|H]; [discriminate|auto].
    + cbn. intros [H|H]; [discriminate|auto].
Qed.

Lemma press_value (k : key) (m : t) :
  (inputMs m mod 1000 = 0 /\ inputMs m <= 86399000)%N ->
  (inputMs (press k m) mod 1000 = 0 /\ inputMs (press k m) <= 86399000)%N.
Proof.
  intros Hm. destruct k as [d|]; cbn [press].
  - destruct (accepts d m) eqn:Ha.
    + rewrite (handleNumberInput_accepted _ _ Ha). cbn [inputMs].
      apply accepted_value_bounds.
      unfold accepts in Ha. apply andb_true_iff in Ha as [_ Ha].
      now apply negb_true_iff in Ha.
    + now rewrite (proj1 (handleNumberInput_rejected _ _ Ha)).
  - cbn. split; [reflexivity|lia].
Qed.

Lemma presses_invariant (ks : list key) (m : t) :
  (inputMs m mod 1000 = 0 /\ inputMs m <= 86399000)%N ->
  ~ In Clamped (warnings m) ->
  (inputMs (presses ks m) mod 1000 = 0 /\ inputMs (presses ks m) <= 86399000)%N
  /\ ~ In Clamped (warnings (presses ks m)).
Proof.
  revert m. induction ks as [|k ks IH]; intros m Hv Hw; [now split|].
  cbn. apply IH; [now apply press_value | now apply press_warnings].
Qed.

End InputFacts.

(** * Facts about the scheduler *)

Section SchedulerFacts.

Import Scheduler.

Lemma is_live_single (h : nat) (f : nat) : is_live h (mk [h] f) = true.
Proof. unfold is_live. cbn. now rewrite Nat.eqb_refl. Qed.

Lemma clear_single (h : nat) (s : t) :
  live s = [h] -> live (clearInterval (Some h) s) = [].
Proof. intros H. cbn. rewrite H. cbn. now rewrite Nat.eqb_refl. Qed.

End SchedulerFacts.

(** * Facts about the stopwatch *)

Section StopwatchFacts.

Import Stopwatch.

Lemma sw_tick_running (now : Z) (s : t) :
  sw_wf s -> isRunning s = true -> tick now s = callback now s.
Proof.
  unfold sw_wf, tick, fire. intros W R. rewrite R in W.
  destruct W as (h & _ & L). rewrite L. cbn.
  destruct (sched s) as [lv fr]. cbn in L. subst lv.
  now rewrite is_live_single.
Qed.

Lemma sw_tick_stopped (now : Z) (s : t) :
  sw_wf s -> isRunning s = false -> tick now s = s.
Proof.
  unfold sw_wf, tick. intros W R. rewrite R in W. now rewrite W.
Qed.

Lemma sw_wf_start (now : Z) (s : t) : sw_wf s -> sw_wf (start now s).
Proof.
  unfold sw_wf, start. intros W.
  destruct (isRunning s) eqn:R; [now rewrite R|].
  cbn. exists (Scheduler.fresh (sched s)). now rewrite W.
Qed.

Lemma sw_wf_pause (s : t) : sw_wf s -> sw_wf (pause s).
Proof.
  unfold sw_wf, pause. intros W.
  destruct (isRunning s) eqn:R; cbn; [|now rewrite R].
  destruct W as (h & T & L). rewrite T. now apply clear_single.
Qed.

Lemma sw_wf_callback (now : Z) (s : t) : sw_wf s -> sw_wf (callback now s).
Proof. unfold sw_wf, callback. cbn. auto. Qed.

Lemma sw_wf_clear (s : t) : sw_wf s -> sw_wf (clear s).
Proof.
  intros W. apply sw_wf_pause in W. unfold sw_wf, clear in *. cbn. exact W.
Qed.

Lemma sw_wf_tick (now : Z) (s : t) : sw_wf s -> sw_wf (tick now s).
Proof.
  intros W. destruct (isRunning s) eqn:R.
  - rewrite sw_tick_running by assumption. now apply sw_wf_callback.
  - now rewrite sw_tick_stopped.
Qed.

Lemma sw_wf_step (s : t) (e : event) : sw_wf s -> sw_wf (step s e).
Proof.
  intros W. destruct e; cbn [step].
  - now apply sw_wf_start.
  - now apply sw_wf_pause.
  - unfold toggleStartPause. destruct (isRunning s);
      [now apply sw_wf_pause | now apply sw_wf_start].
  - now apply sw_wf_tick.
  - now apply sw_wf_clear.
  - now apply sw_wf_clear.
Qed.

Lemma sw_wf_run (evs : list event) (s : t) : sw_wf s -> sw_wf (run evs s).
Proof.
  revert s. induction evs as [|e evs IH]; intros s W; [exact W|].
  cbn. apply IH. now apply sw_wf_step.
Qed.

Lemma sw_wf_new (text : string) : sw_wf (new text).
Proof. reflexivity. Qed.

(** The ledger of measured intervals follows the stopwatch step by step. *)
Lemma sw_booked_step (s : t) (l : ledger) (e : event) :
  sw_wf s -> sw_booked s l -> sw_booked (step s e) (book_ticked l e).
Proof.
  intros W B. unfold sw_booked in B.
  destruct l as [cl [[b u]|]]; cbn [opened closed] in B.
  - destruct B as (R & A & E).
    destruct e; cbn [step book_ticked open_at opened closed];
      unfold sw_booked; cbn [opened closed].
    + unfold start. rewrite R. auto.
    + unfold pause. rewrite R. cbn. auto.
    + unfold toggleStartPause, pause. rewrite R. cbn. auto.
    + rewrite sw_tick_running by assumption. unfold callback. cbn.
      repeat split; auto; lia.
    + unfold clear, pause. rewrite R. cbn. auto.
    + unfold reset, clear, pause. rewrite R. cbn. auto.
  - destruct B as (R & E).
    destruct e; cbn [step book_ticked open_at opened closed];
      unfold sw_booked; cbn [opened closed].
    + unfold start. rewrite R. cbn. repeat split; auto; lia.
    + unfold pause. rewrite R. cbn. auto.
    + unfold toggleStartPause, start. rewrite R. cbn. repeat split; auto; lia.
    + rewrite sw_tick_stopped by assumption. auto.
    + unfold clear, pause. rewrite R. cbn. auto.
    + unfold reset, clear, pause. rewrite R. cbn. auto.
Qed.

Lemma sw_booked_run (evs : list event) (s : t) (l : ledger) :
  sw_wf s -> sw_booked s l ->
  sw_booked (run evs s) (fold_left book_ticked evs l).
Proof.
  revert s l. induction evs as [|e evs IH]; intros s l W B; [exact B|].
  cbn. apply IH; [now apply sw_wf_step | now apply sw_booked_step].
Qed.

Lemma sw_booked_total (s : t) (l : ledger) :
  sw_booked s l -> elapsedTime s = total l.
Proof.
  unfold sw_booked, total. destruct (opened l) as [[b u]|].
  - now intros (_ & _ & E).
  - intros (_ & E). lia.
Qed.

(** What is shown stays non-negative under a monotone clock. *)
Lemma sw_nonneg_step (lo : Z) (s : t) (e : event) :
  sw_wf s -> sw_nonneg lo s -> monotone lo [e] ->
  sw_nonneg (match e with
             | Start now | Pause now | Toggle now | Tick now => now
             | Clear | Reset => lo
             end) (step s e).
Proof.
  intros W (E & F & A) M. unfold sw_nonneg.
  destruct e; cbn [step]; cbn in M.
  - unfold start. destruct (isRunning s) eqn:R; cbn.
    + rewrite R. repeat split; auto. intros _. specialize (A eq_refl). lia.
    + repeat split; auto. intros _. lia.
  - unfold pause. destruct (isRunning s) eqn:R; cbn.
    + repeat split; auto. discriminate.
    + rewrite R. repeat split; auto. discriminate.
  - unfold toggleStartPause, pause, start. destruct (isRunning s) eqn:R; cbn.
    + repeat split; auto. discriminate.
    + repeat split; auto. intros _. lia.
  - destruct (isRunning s) eqn:R.
    + rewrite sw_tick_running by assumption. unfold callback. cbn.
      specialize (A eq_refl).
      repeat split; [lia | constructor; [lia|exact F] | intros _; lia].
    + rewrite sw_tick_stopped by assumption. rewrite R.
      repeat split; auto. discriminate.
  - unfold clear, pause. destruct (isRunning s) eqn:R; cbn.
    + repeat split; [lia | constructor; [lia|exact F] | discriminate].
    + rewrite R. repeat split; [lia | constructor; [lia|exact F] | discriminate].
  - unfold reset, clear, pause. destruct (isRunning s) eqn:R; cbn.
    + repeat split; [lia | constructor; [lia|exact F] | discriminate].
    + rewrite R. repeat split; [lia | constructor; [lia|exact F] | discriminate].
Qed.

Lemma sw_nonneg_run (evs : list event) (lo : Z) (s : t) :
  sw_wf s -> sw_nonneg lo s -> monotone lo evs ->
  Forall (fun v => 0 <= v) (shown (run evs s)).
Proof.
  revert lo s. induction evs as [|e evs IH]; intros lo s W N M.
  - exact (proj1 (proj2 N)).
  - cbn [run fold_left].
    assert (M1 : monotone lo [e]) by (destruct e; cbn in *; tauto).
    pose proof (sw_nonneg_step lo s e W N M1) as N'.
    apply sw_wf_step with (e := e) in W.
    destruct e; cbn in M; (eapply IH; [exact W | exact N' | tauto]).
Qed.

End StopwatchFacts.

(** * Facts about the countdown *)

Section CountdownFacts.

Import Countdown.

Lemma cd_wf_pause (c : t) : cd_wf c -> cd_wf (pause c).
Proof.
  unfold cd_wf, pause. intros W.
  destruct (isRunning c) eqn:R; cbn; [|now rewrite R].
  destruct W as (h & T & L). rewrite T. now apply clear_single.
Qed.

Lemma cd_wf_start (now : Z) (c : t) : cd_wf c -> cd_wf (start now c).
Proof.
  unfold cd_wf, start. intros W.
  destruct (isRunning c) eqn:R; cbn [orb]; [now rewrite R|].
  destruct (remainingTime c <=? 0); [now rewrite R|].
  cbn. exists (Scheduler.fresh (sched c)). now rewrite W.
Qed.

Lemma cd_wf_setInitialTime (ms : Z) (c : t) :
  cd_wf c -> cd_wf (setInitialTime ms c).
Proof. unfold cd_wf, setInitialTime. cbn. auto. Qed.

Lemma cd_wf_callback (now : Z) (c : t) : cd_wf c -> cd_wf (callback now c).
Proof.
  intros W. unfold callback. cbn [set_remainingTime remainingTime].
  destruct (endTime c - now <=? 0).
  - assert (W1 : cd_wf (set_remainingTime 0 (set_remainingTime (endTime c - now) c)))
      by exact W.
    apply cd_wf_pause in W1. exact W1.
  - exact W.
Qed.

Lemma cd_wf_continue (now : Z) (c : t) :
  cd_wf c -> cd_wf (continueCountdown now c).
Proof.
  intros W. unfold continueCountdown.
  destruct (isRunning c || (remainingTime c <=? 0)); [exact W|].
  now apply cd_wf_start.
Qed.

Lemma cd_wf_clear (c : t) : cd_wf c -> cd_wf (clear c).
Proof. intros W. apply cd_wf_pause in W. exact W. Qed.

Lemma cd_wf_reset (c : t) : cd_wf c -> cd_wf (reset c).
Proof. intros W. apply cd_wf_pause in W. exact W. Qed.

Lemma cd_tick_running (now : Z) (c : t) :
  cd_wf c -> isRunning c = true -> tick now c = callback now c.
Proof.
  unfold cd_wf, tick, fire. intros W R. rewrite R in W.
  destruct W as (h & _ & L). rewrite L. cbn.
  destruct (sched c) as [lv fr]. cbn in L. subst lv.
  now rewrite is_live_single.
Qed.

Lemma cd_tick_stopped (now : Z) (c : t) :
  cd_wf c -> isRunning c = false -> tick now c = c.
Proof.
  unfold cd_wf, tick. intros W R. rewrite R in W. now rewrite W.
Qed.

Lemma cd_wf_tick (now : Z) (c : t) : cd_wf c -> cd_wf (tick now c).
Proof.
  intros W. destruct (isRunning c) eqn:R.
  - rewrite cd_tick_running by assumption. now apply cd_wf_callback.
  - now rewrite cd_tick_stopped.
Qed.

Lemma cd_wf_step (c : t) (e : event) : cd_wf c -> cd_wf (step c e).
Proof.
  intros W. destruct e; cbn [step].
  - now apply cd_wf_setInitialTime.
  - now apply cd_wf_start.
  - now apply cd_wf_pause.
  - now apply cd_wf_continue.
  - unfold toggleStartPauseContinue. destruct (isRunning c).
    + now apply cd_wf_pause.
    + destruct (caption c =? "Start")%string;
        [now apply cd_wf_start | now apply cd_wf_continue].
  - now apply cd_wf_tick.
  - now apply cd_wf_clear.
  - now apply cd_wf_reset.
Qed.

Lemma cd_wf_run (evs : list event) (c : t) : cd_wf c -> cd_wf (run evs c).
Proof.
  revert c. induction evs as [|e evs IH]; intros c W; [exact W|].
  cbn. apply IH. now apply cd_wf_step.
Qed.

Lemma cd_wf_new (text : string) : cd_wf (new text).
Proof. reflexivity. Qed.

Lemma cd_ticks_stopped (nows : list Z) (c : t) :
  cd_wf c -> isRunning c = false -> ticks nows c = c.
Proof.
  intros W R. induction nows as [|now nows IH]; [reflexivity|].
  cbn. rewrite cd_tick_stopped by assumption. exact IH.
Qed.

(** While the deadline lies ahead, a tick stores and shows the distance to
    it and changes nothing else. *)
Lemma cd_callback_before (now : Z) (c : t) :
  now < endTime c ->
  callback now c =
    mk (timer c) (initialTimeMs c) (endTime c - now) (endTime c) (isRunning c)
       (caption c) ((endTime c - now) :: shown c) (sched c).
Proof.
  intros H. unfold callback. cbn [set_remainingTime remainingTime].
  destruct (Z.leb_spec (endTime c - now) 0); [lia|reflexivity].
Qed.

(** At or past the deadline, the tick of a running countdown finishes it. *)
Lemma cd_callback_after (now : Z) (c : t) :
  endTime c <= now -> isRunning c = true ->
  callback now c =
    mk (timer c) (initialTimeMs c) 0 (endTime c) false "Start" (0 :: shown c)
       (Scheduler.clearInterval (timer c) (sched c)).
Proof.
  intros H R. unfold callback. cbn [set_remainingTime remainingTime].
  destruct (Z.leb_spec (endTime c - now) 0); [|lia].
  unfold pause. cbn. rewrite R. reflexivity.
Qed.

(** A running countdown ticked only before its deadline: it is still
    running towards the same deadline, holds the distance from the last
    tick, and has shown the distance at each tick. *)
Lemma cd_ticks_before (mids : list Z) (c : t) :
  cd_wf c -> isRunning c = true ->
  Forall (fun now => now < endTime c) mids ->
  let c' := ticks mids c in
  cd_wf c' /\ isRunning c' = true /\ endTime c' = endTime c
  /\ timer c' = timer c /\ sched c' = sched c
  /\ initialTimeMs c' = initialTimeMs c /\ caption c' = caption c
  /\ remainingTime c' =
       match rev mids with [] => remainingTime c | now :: _ => endTime c - now end
  /\ shown c' = map (fun now => endTime c - now) (rev mids) ++ shown c.
Proof.
  revert c. induction mids as [|now mids IH]; intros c W R F c'.
  - subst c'. cbn. repeat split; auto.
  - inversion F as [|? ? Hnow F']; subst.
    subst c'. cbn [ticks fold_left].
    rewrite cd_tick_running by assumption.
    rewrite cd_callback_before by assumption.
    set (c1 := mk _ _ _ _ _ _ _ _).
    assert (W1 : cd_wf c1) by exact W.
    assert (R1 : isRunning c1 = true) by exact R.
    specialize (IH c1 W1 R1 F').
    cbn zeta in IH. fold (ticks mids c1) in *.
    destruct IH as (Wc & Rc & Ec & Tc & Sc & Ic & Cc & Rem & Sh).
    repeat split; auto.
    + rewrite Rem. cbn [rev]. destruct (rev mids) as [|x xs]; reflexivity.
    + rewrite Sh. cbn [rev]. rewrite map_app, <- app_assoc. reflexivity.
Qed.

Lemma cd_nonneg_fire (h : nat) (now : Z) (c : t) :
  cd_nonneg c -> cd_nonneg (fire h now c).
Proof.
  intros [I F]. unfold fire. destruct (Scheduler.is_live h (sched c)); [|now split].
  unfold callback. cbn [set_remainingTime remainingTime].
  destruct (Z.leb_spec (endTime c - now) 0).
  - unfold pause, cd_nonneg. cbn. destruct (isRunning c); cbn;
      (split; [exact I | constructor; [lia|exact F]]).
  - unfold cd_nonneg. cbn. split; [exact I | constructor; [lia|exact F]].
Qed.

Lemma cd_nonneg_tick (now : Z) (c : t) : cd_nonneg c -> cd_nonneg (tick now c).
Proof.
  unfold tick. generalize (rev (Scheduler.live (sched c))). intros hs.
  revert c. induction hs as [|h hs IH]; intros c N; [exact N|].
  cbn. apply IH. now apply cd_nonneg_fire.
Qed.

Lemma cd_nonneg_pause (c : t) : cd_nonneg c -> cd_nonneg (pause c).
Proof. unfold cd_nonneg, pause. destruct (isRunning c); cbn; auto. Qed.

Lemma cd_nonneg_start (now : Z) (c : t) : cd_nonneg c -> cd_nonneg (start now c).
Proof.
  unfold cd_nonneg, start.
  destruct (isRunning c || (remainingTime c <=? 0)); cbn; auto.
Qed.

Lemma cd_nonneg_step (c : t) (e : event) :
  (forall ms, e = SetInitial ms -> 0 <= ms) ->
  cd_nonneg c -> cd_nonneg (step c e).
Proof.
  intros D N. destruct e; cbn [step].
  - destruct N as [I F]. specialize (D ms eq_refl).
    unfold cd_nonneg, setInitialTime. cbn. split; [lia | constructor; [lia|exact F]].
  - now apply cd_nonneg_start.
  - now apply cd_nonneg_pause.
  - unfold continueCountdown.
    destruct (isRunning c || (remainingTime c <=? 0)); [exact N|].
    now apply cd_nonneg_start.
  - unfold toggleStartPauseContinue, continueCountdown.
    destruct (isRunning c); [now apply cd_nonneg_pause|].
    destruct (caption c =? "Start")%string; [now apply cd_nonneg_start|].
    cbn [orb]. destruct (remainingTime c <=? 0); [exact N|].
    now apply cd_nonneg_start.
  - now apply cd_nonneg_tick.
  - apply cd_nonneg_pause in N. destruct N as [I F].
    unfold cd_nonneg, clear. cbn. split; [exact I | constructor; [exact I|exact F]].
  - apply cd_nonneg_pause in N. destruct N as [I F].
    unfold cd_nonneg, reset. cbn. split; [lia | constructor; [lia|exact F]].
Qed.

Lemma cd_nonneg_run (evs : list event) (c : t) :
  durations_ok evs -> cd_nonneg c -> cd_nonneg (run evs c).
Proof.
  revert c. induction evs as [|e evs IH]; intros c D N; [exact N|].
  cbn. apply IH.
  - intros ms H. apply D. now right.
  - apply cd_nonneg_step; [|exact N].
    intros ms ->. apply D. now left.
Qed.

End CountdownFacts.

(** * Facts about the wiring *)

Section AppFacts.

Lemma app_nonneg_step (a : App.t) (e : App.event) :
  cd_nonneg (App.countdown a) -> cd_nonneg (App.countdown (App.step a e)).
Proof.
  intros N. destruct e; cbn [App.step App.countdown]; try exact N.
  - unfold App.pressSet, Input.triggerSet.
    destruct (0 <? Input.inputMs (App.input a))%N; cbn [App.countdown]; [|exact N].
    apply (cd_nonneg_step _ (Countdown.SetInitial _)); [|exact N].
    intros ms H. injection H as <-. lia.
  - apply (cd_nonneg_step _ (Countdown.Toggle now)); [discriminate|exact N].
  - apply (cd_nonneg_step _ Countdown.Clear); [discriminate|exact N].
  - now apply cd_nonneg_tick.
  - apply (cd_nonneg_step _ Countdown.Reset); [discriminate|exact N].
Qed.

Lemma app_nonneg_run (evs : list App.event) (a : App.t) :
  cd_nonneg (App.countdown a) -> cd_nonneg (App.countdown (App.run evs a)).
Proof.
  revert a. induction evs as [|e evs IH]; intros a N; [exact N|].
  cbn. apply IH. now apply app_nonneg_step.
Qed.

End AppFacts.

(** * Properties of the specification, checked against the code *)

(** ** C1: what [setInitialTime] does with its argument *)

(** C1, as stated, fails: on a countdown configured with 5000 ms,
    [setInitialTime(0)] and [setInitialTime(86400000)] are both carried out
    and overwrite the configured and the remaining duration. *)
Lemma setInitialTime_out_of_range_is_stored :
  let c := Countdown.setInitialTime 5000 (Countdown.new "Start") in
  Countdown.initialTimeMs c = 5000
  /\ Countdown.remainingTime c = 5000
  /\ Countdown.initialTimeMs (Countdown.setInitialTime 0 c) = 0
  /\ Countdown.remainingTime (Countdown.setInitialTime 0 c) = 0
  /\ Countdown.initialTimeMs (Countdown.setInitialTime 86400000 c) = 86400000
  /\ Countdown.remainingTime (Countdown.setInitialTime 86400000 c) = 86400000
  /\ Countdown.setInitialTime 0 c <> c
  /\ Countdown.setInitialTime 86400000 c <> c.
Proof.
  cbn. repeat split; try reflexivity; intros H; discriminate H.
Qed.

(** C1, amended.  [setInitialTime(ms)] tests nothing: for every [ms] it
    stores [ms] as the configured and as the remaining duration, shows it,
    captions the button [Start] and leaves the running flag, the interval
    handle, the deadline and the scheduler as they were; in particular
    [setInitialTime(86399999)] stores 86_399_999.  Zero is kept away by the
    caller: the Set button hands the buffer over only when it is positive,
    and leaves the countdown untouched otherwise. *)
Theorem setInitialTime_stores_any_duration :
  (forall ms c,
     let c' := Countdown.setInitialTime ms c in
     Countdown.initialTimeMs c' = ms
     /\ Countdown.remainingTime c' = ms
     /\ Countdown.shown c' = ms :: Countdown.shown c
     /\ Countdown.caption c' = "Start"%string
     /\ Countdown.isRunning c' = Countdown.isRunning c
     /\ Countdown.timer c' = Countdown.timer c
     /\ Countdown.endTime c' = Countdown.endTime c
     /\ Countdown.sched c' = Countdown.sched c)
  /\ (forall a,
        Countdown.initialTimeMs
          (Countdown.setInitialTime 86399999 (App.countdown a)) = 86399999)
  /\ (forall a,
        App.countdown (App.pressSet a) =
          if (0 <? Input.inputMs (App.input a))%N
          then Countdown.setInitialTime (Z.of_N (Input.inputMs (App.input a)))
                 (App.countdown a)
          else App.countdown a).
Proof.
  split; [|split].
  - intros ms c. cbn. repeat split.
  - intros a. reflexivity.
  - intros a. unfold App.pressSet, Input.triggerSet.
    destruct (0 <? Input.inputMs (App.input a))%N; reflexivity.
Qed.

(** ** C2: what the stopwatch has accumulated after a pause *)

(** C2, as stated, fails: started at instant 0, ticked at 10 and paused at
    15, the stopwatch holds 10 ms although it ran for 15 ms. *)
Lemma stopwatch_pause_between_ticks :
  let evs := [Stopwatch.Start 0; Stopwatch.Tick 10; Stopwatch.Pause 15] in
  Stopwatch.elapsedTime (Stopwatch.run evs (Stopwatch.new "Start")) = 10
  /\ Stopwatch.running_total evs = 15
  /\ Stopwatch.elapsedTime (Stopwatch.run evs (Stopwatch.new "Start"))
     <> Stopwatch.running_total evs.
Proof.
  cbn. repeat split; try reflexivity. intros H; discriminate H.
Qed.

(** C2, amended.  After any history of start, pause, toggle, tick, clear and
    reset, at whatever instants, the elapsed time is the sum over the Running
    intervals since the last clear of (instant of the last tick fired in the
    interval - instant of its start), an interval without a tick counting for
    nothing: [pause()] keeps the value of the last tick and does not read the
    clock.  [start()] on a stopped stopwatch sets the anchor to
    [now - elapsed] and keeps [elapsed]. *)
Theorem stopwatch_elapsed_is_ticked_total :
  (forall text evs,
     Stopwatch.elapsedTime (Stopwatch.run evs (Stopwatch.new text))
     = Stopwatch.ticked_total evs)
  /\ (forall s, Stopwatch.elapsedTime (Stopwatch.pause s) = Stopwatch.elapsedTime s)
  /\ (forall now s,
        Stopwatch.isRunning s = false ->
        Stopwatch.startTime (Stopwatch.start now s) = now - Stopwatch.elapsedTime s
        /\ Stopwatch.elapsedTime (Stopwatch.start now s) = Stopwatch.elapsedTime s
        /\ Stopwatch.isRunning (Stopwatch.start now s) = true).
Proof.
  split; [|split].
  - intros text evs. unfold Stopwatch.ticked_total.
    apply sw_booked_total, sw_booked_run.
    + apply sw_wf_new.
    + split; reflexivity.
  - intros s. unfold Stopwatch.pause. destruct (Stopwatch.isRunning s); reflexivity.
  - intros now s R. unfold Stopwatch.start. rewrite R. cbn. auto.
Qed.

Lemma stopwatch_elapsed_is_ticked_total_witness :
  let s := Stopwatch.run [Stopwatch.Start 0; Stopwatch.Tick 10; Stopwatch.Pause 15]
             (Stopwatch.new "Start") in
  Stopwatch.isRunning s = false
  /\ Stopwatch.elapsedTime s = 10
  /\ Stopwatch.startTime (Stopwatch.start 40 s) = 30.
Proof.
  intros s.
  split; [reflexivity|]. split; [reflexivity|].
  exact (proj1 (proj2 (proj2 stopwatch_elapsed_is_ticked_total) 40 s eq_refl)).
Defined.

(** ** C3: the keypad's shift register *)

(** C3.  The register that [handleNumberInput] shifts is the decimal writing
    of the buffered total of seconds, not the six digits HHMMSS: from a
    cleared buffer the presses 1,2,3,4,5,6 buffer 1 s, 12 s, 83 s (00:01:23),
    514 s (00:08:34), 3105 s (00:51:45) and finally "031056", that is
    03:10:56 = 11_456_000 ms, not 12:34:56 = 45_296_000 ms.  Pressing 9 next
    is refused (seconds 69), as it is from a buffer that does hold 12:34:56,
    where the register read is "045296" and the shifted one "452969". *)
Theorem keypad_123456_is_not_12_34_56 :
  let m := Input.type_digits ["1"; "2"; "3"; "4"; "5"; "6"]%string Input.new in
  Input.shown m = [11456000; 3105000; 514000; 83000; 12000; 1000; 0]%N
  /\ Input.inputMs m = 11456000%N
  /\ Z.of_N (Input.inputMs m) = hhmmss 3 10 56
  /\ Z.of_N (Input.inputMs m) <> hhmmss 12 34 56
  /\ Input.currentNumString m = "011456"%string
  /\ Input.newNumString "9" m = "114569"%string
  /\ Input.inputMs (Input.handleNumberInput "9" m) = Input.inputMs m
  /\ (let m12 := Input.mk (Z.to_N (hhmmss 12 34 56)) [] [] in
      Input.currentNumString m12 = "045296"%string
      /\ Input.newNumString "9" m12 = "452969"%string
      /\ Input.inputMs (Input.handleNumberInput "9" m12) = Input.inputMs m12).
Proof.
  vm_compute. repeat split; try reflexivity. intros H; discriminate H.
Qed.

(** ** C4: running a countdown down to its deadline *)

(** C4.  Take a countdown that is not running, after any history; configure
    it with [0 < ms <= 86_399_999] and start it at instant [t0].  Whatever
    ticks fire before the deadline [t0 + ms] leave it running and show
    positive values only; the first tick at or after the deadline (the clock
    advanced by exactly [ms], or later) stores 0, stops the scheduler, leaves
    the countdown Finished and shows 0 once.  From then on ticks change
    nothing and starting is refused. *)
Theorem countdown_reaches_zero :
  forall text evs ms t0 mids tf,
    let c := Countdown.run evs (Countdown.new text) in
    Countdown.isRunning c = false ->
    0 < ms <= 86399999 ->
    Forall (fun now => now < t0 + ms) mids ->
    t0 + ms <= tf ->
    let c2 := Countdown.ticks mids
                (Countdown.start t0 (Countdown.setInitialTime ms c)) in
    let c3 := Countdown.tick tf c2 in
    Countdown.isRunning c2 = true
    /\ Countdown.shown c2 = map (fun now => t0 + ms - now) (rev mids)
                            ++ ms :: Countdown.shown c
    /\ Forall (fun v => 0 < v) (map (fun now => t0 + ms - now) (rev mids))
    /\ Countdown.remainingTime c3 = 0
    /\ Countdown.isRunning c3 = false
    /\ Scheduler.live (Countdown.sched c3) = []
    /\ Countdown.state c3 = Finished
    /\ Countdown.shown c3 = 0 :: Countdown.shown c2
    /\ (forall later, Countdown.ticks later c3 = c3)
    /\ (forall now, Countdown.start now c3 = c3)
    /\ (forall now, Countdown.continueCountdown now c3 = c3).
Proof.
  intros text evs ms t0 mids tf c R Hms F Htf.
  assert (W : cd_wf c) by (apply cd_wf_run, cd_wf_new).
  set (c1 := Countdown.start t0 (Countdown.setInitialTime ms c)).
  assert (E1 : c1 = Countdown.mk (Some (Scheduler.fresh (Countdown.sched c)))
                      ms ms (t0 + ms) true "Pause" (ms :: Countdown.shown c)
                      (Scheduler.mk [Scheduler.fresh (Countdown.sched c)]
                         (S (Scheduler.fresh (Countdown.sched c))))).
  { unfold c1, Countdown.start, Countdown.setInitialTime. cbn. rewrite R. cbn.
    destruct (Z.leb_spec ms 0); [lia|].
    unfold cd_wf in W. rewrite R in W. cbn. now rewrite W. }
  assert (W1 : cd_wf c1).
  { rewrite E1. unfold cd_wf. cbn. eauto. }
  assert (R1 : Countdown.isRunning c1 = true) by now rewrite E1.
  assert (F1 : Forall (fun now => now < Countdown.endTime c1) mids)
    by now rewrite E1.
  destruct (cd_ticks_before mids c1 W1 R1 F1)
    as (W2 & R2 & E2 & T2 & S2 & I2 & C2 & Rem2 & Sh2).
  intros c2 c3. fold c2 in W2, R2, E2, T2, S2, I2, C2, Rem2, Sh2.
  assert (E3 : c3 = Countdown.mk (Countdown.timer c2) ms 0 (t0 + ms) false
                      "Start" (0 :: Countdown.shown c2)
                      (Scheduler.mk [] (S (Scheduler.fresh (Countdown.sched c))))).
  { unfold c3. rewrite cd_tick_running by assumption.
    rewrite cd_callback_after; [|rewrite E2, E1; cbn; lia|exact R2].
    rewrite E2, T2, S2, I2, E1. cbn. now rewrite Nat.eqb_refl. }
  assert (W3 : cd_wf c3) by (rewrite E3; reflexivity).
  assert (R3 : Countdown.isRunning c3 = false) by now rewrite E3.
  split; [exact R2|].
  split; [rewrite Sh2, E1; reflexivity|].
  split.
  { apply Forall_forall. intros v Hv. apply in_map_iff in Hv as (now & <- & Hin).
    apply in_rev in Hin. rewrite Forall_forall in F. specialize (F now Hin). lia. }
  split; [now rewrite E3|].
  split; [exact R3|].
  split; [now rewrite E3|].
  split.
  { rewrite E3. unfold Countdown.state. cbn.
    destruct (Z.ltb_spec 0 ms); [reflexivity|lia]. }
  split; [now rewrite E3|].
  split; [intros later; now apply cd_ticks_stopped|].
  split; intros now; rewrite E3; reflexivity.
Qed.

Lemma countdown_reaches_zero_witness :
  let c2 := Countdown.ticks [10; 25; 1490]
              (Countdown.start 0
                 (Countdown.setInitialTime 1500 (Countdown.new "Start"))) in
  Countdown.remainingTime c2 = 10
  /\ Countdown.state (Countdown.tick 1500 c2) = Finished
  /\ Countdown.shown (Countdown.tick 1500 c2) = [0; 10; 1475; 1490; 1500].
Proof.
  intros c2.
  assert (F : Forall (fun now => now < 0 + 1500) [10; 25; 1490])
    by (repeat constructor).
  assert (B : 0 < 1500 <= 86399999) by lia.
  assert (D : 0 + 1500 <= 1500) by lia.
  pose proof (countdown_reaches_zero "Start" [] 1500 0 [10; 25; 1490] 1500
                eq_refl B F D) as H.
  cbv zeta in H.
  split; [reflexivity|].
  split; [exact (proj1 (proj2 (proj2 (proj2 (proj2 (proj2 (proj2 H))))))) |].
  reflexivity.
Defined.

(** ** C5: what [pause()] freezes *)

(** C5, as stated, fails: a countdown of 5000 ms started at instant 0,
    ticked at 10 and paused at 15 keeps the 4990 ms of the tick, not the
    4985 ms that separate instant 15 from the deadline. *)
Lemma countdown_pause_keeps_tick_value :
  let c := Countdown.run
             [Countdown.SetInitial 5000; Countdown.Start 0; Countdown.Tick 10]
             (Countdown.new "Start") in
  Countdown.isRunning c = true
  /\ Countdown.endTime c - 15 = 4985
  /\ Countdown.remainingTime (Countdown.step c (Countdown.Pause 15)) = 4990
  /\ Countdown.remainingTime (Countdown.step c (Countdown.Pause 15))
     <> Countdown.endTime c - 15.
Proof.
  cbn. repeat split; try reflexivity. intros H; discriminate H.
Qed.

(** C5, amended.  [pause()] never reads the clock: it leaves [remainingTime]
    and the deadline as they are, and on a running countdown it stops the
    scheduler and leaves the countdown Paused.  So a countdown started at
    [t0] with [r > 0] remaining and paused after ticks that all fired before
    the deadline holds the value stored by the last of these ticks,
    [t0 + r - last], and [r] itself if no tick fired. *)
Theorem countdown_pause_freezes_last_tick :
  (forall c,
     Countdown.remainingTime (Countdown.pause c) = Countdown.remainingTime c
     /\ Countdown.endTime (Countdown.pause c) = Countdown.endTime c)
  /\ (forall text evs t0 mids,
        let c := Countdown.run evs (Countdown.new text) in
        let r := Countdown.remainingTime c in
        Countdown.isRunning c = false ->
        0 < r ->
        Forall (fun now => now < t0 + r) mids ->
        let p := Countdown.pause (Countdown.ticks mids (Countdown.start t0 c)) in
        Countdown.remainingTime p = t0 + r - last mids t0
        /\ Countdown.isRunning p = false
        /\ Countdown.state p = Paused
        /\ Scheduler.live (Countdown.sched p) = []).
Proof.
  split.
  - intros c. unfold Countdown.pause.
    destruct (Countdown.isRunning c); split; reflexivity.
  - intros text evs t0 mids c r R Hr F.
    assert (W : cd_wf c) by (apply cd_wf_run, cd_wf_new).
    set (c1 := Countdown.start t0 c).
    assert (E1 : c1 = Countdown.mk (Some (Scheduler.fresh (Countdown.sched c)))
                        (Countdown.initialTimeMs c) r (t0 + r) true "Pause"
                        (Countdown.shown c)
                        (Scheduler.mk [Scheduler.fresh (Countdown.sched c)]
                           (S (Scheduler.fresh (Countdown.sched c))))).
    { unfold c1, Countdown.start. rewrite R. cbn [orb]. fold r.
      destruct (Z.leb_spec r 0); [lia|].
      unfold cd_wf in W. rewrite R in W. cbn. now rewrite W. }
    assert (W1 : cd_wf c1) by (rewrite E1; unfold cd_wf; cbn; eauto).
    assert (R1 : Countdown.isRunning c1 = true) by now rewrite E1.
    assert (F1 : Forall (fun now => now < Countdown.endTime c1) mids)
      by now rewrite E1.
    destruct (cd_ticks_before mids c1 W1 R1 F1)
      as (W2 & R2 & E2 & T2 & S2 & I2 & C2 & Rem2 & Sh2).
    intros p. subst p. set (c2 := Countdown.ticks mids c1) in *.
    unfold Countdown.pause. rewrite R2. cbn [negb].
    unfold Countdown.state. cbn.
    split.
    + rewrite Rem2, E1. cbn.
      destruct mids as [|m mids'] using rev_ind; [cbn; lia|].
      rewrite rev_app_distr, last_last. reflexivity.
    + split; [reflexivity|]. split; [reflexivity|].
      rewrite T2, S2, E1. cbn. now rewrite Nat.eqb_refl.
Qed.

Lemma countdown_pause_freezes_last_tick_witness :
  let c := Countdown.setInitialTime 5000 (Countdown.new "Start") in
  let p := Countdown.pause (Countdown.ticks [10] (Countdown.start 0 c)) in
  Countdown.isRunning c = false
  /\ Countdown.remainingTime p = 4990.
Proof.
  intros c p.
  assert (Hr : 0 < 5000) by lia.
  assert (F : Forall (fun now => now < 0 + 5000) [10]) by (repeat constructor).
  pose proof (proj2 countdown_pause_freezes_last_tick "Start"%string
                [Countdown.SetInitial 5000] 0 [10] eq_refl Hr F) as H.
  split; [reflexivity|]. exact (proj1 H).
Defined.

(** ** C6: [setInitialTime] on a running countdown *)

(** C6.  [setInitialTime] does not stop a running countdown, unlike
    [clear()] and [reset()], which both begin with [pause()]: configured
    with 5000 ms, started at instant 0 and configured again with 9000 ms, the
    countdown is still Running under the caption [Start], its interval is
    still registered, and the tick at instant 10 overwrites the 9000 ms with
    the 4990 ms left to the old deadline. *)
Theorem setInitialTime_keeps_running :
  let c := Countdown.run
             [Countdown.SetInitial 5000; Countdown.Start 0;
              Countdown.SetInitial 9000] (Countdown.new "Start") in
  Countdown.initialTimeMs c = 9000
  /\ Countdown.remainingTime c = 9000
  /\ Countdown.isRunning c = true
  /\ Countdown.state c = Running
  /\ Countdown.caption c = "Start"%string
  /\ Scheduler.live (Countdown.sched c) = [0%nat]
  /\ Countdown.endTime c = 5000
  /\ Countdown.remainingTime (Countdown.tick 10 c) = 4990
  /\ Countdown.state (Countdown.clear (Countdown.run
        [Countdown.SetInitial 5000; Countdown.Start 0] (Countdown.new "Start")))
     = Idle
  /\ Countdown.state (Countdown.reset (Countdown.run
        [Countdown.SetInitial 5000; Countdown.Start 0] (Countdown.new "Start")))
     = Idle.
Proof.
  cbn. repeat split; reflexivity.
Qed.

(** ** C7: [clear()] restores the baseline *)

(** C7.  After any history, [clear()] leaves the countdown stopped and Idle
    with no interval registered, the configured duration untouched and
    [remainingTime = initialTimeMs], which it shows; it leaves the stopwatch
    stopped and Idle with no interval registered and [elapsedTime = 0], which
    it shows.  A positive buffer handed over by the Set button and followed
    at once by [clear()] gives back exactly the buffered duration. *)
Theorem clear_restores_baseline :
  (forall text evs,
     let c0 := Countdown.run evs (Countdown.new text) in
     let c := Countdown.clear c0 in
     Countdown.remainingTime c = Countdown.initialTimeMs c
     /\ Countdown.initialTimeMs c = Countdown.initialTimeMs c0
     /\ Countdown.isRunning c = false
     /\ Countdown.state c = Idle
     /\ Scheduler.live (Countdown.sched c) = []
     /\ Countdown.shown c = Countdown.initialTimeMs c0 :: Countdown.shown c0)
  /\ (forall text evs,
        let s0 := Stopwatch.run evs (Stopwatch.new text) in
        let s := Stopwatch.clear s0 in
        Stopwatch.elapsedTime s = 0
        /\ Stopwatch.isRunning s = false
        /\ Stopwatch.state s = Idle
        /\ Scheduler.live (Stopwatch.sched s) = []
        /\ Stopwatch.shown s = 0 :: Stopwatch.shown s0)
  /\ (forall a,
        (0 < Input.inputMs (App.input a))%N ->
        let c := Countdown.clear (App.countdown (App.pressSet a)) in
        Countdown.remainingTime c = Z.of_N (Input.inputMs (App.input a))
        /\ Countdown.initialTimeMs c = Z.of_N (Input.inputMs (App.input a))).
Proof.
  split; [|split].
  - intros text evs c0 c.
    assert (W : cd_wf (Countdown.pause c0))
      by (apply cd_wf_pause, cd_wf_run, cd_wf_new).
    assert (R : Countdown.isRunning (Countdown.pause c0) = false)
      by (unfold Countdown.pause; destruct (Countdown.isRunning c0) eqn:E;
          [reflexivity | exact E]).
    assert (I : Countdown.initialTimeMs (Countdown.pause c0)
                = Countdown.initialTimeMs c0)
      by (unfold Countdown.pause; destruct (Countdown.isRunning c0); reflexivity).
    assert (S : Countdown.shown (Countdown.pause c0) = Countdown.shown c0)
      by (unfold Countdown.pause; destruct (Countdown.isRunning c0); reflexivity).
    unfold cd_wf in W. rewrite R in W.
    subst c. unfold Countdown.clear, Countdown.state. cbn.
    rewrite R, I, S. cbn.
    repeat split; auto.
    destruct (Z.leb_spec (Countdown.initialTimeMs c0) 0);
      destruct (Z.ltb_spec 0 (Countdown.initialTimeMs c0)); try reflexivity; lia.
  - intros text evs s0 s.
    assert (W : sw_wf (Stopwatch.pause s0))
      by (apply sw_wf_pause, sw_wf_run, sw_wf_new).
    assert (R : Stopwatch.isRunning (Stopwatch.pause s0) = false)
      by (unfold Stopwatch.pause; destruct (Stopwatch.isRunning s0) eqn:E;
          [reflexivity | exact E]).
    assert (S : Stopwatch.shown (Stopwatch.pause s0) = Stopwatch.shown s0)
      by (unfold Stopwatch.pause; destruct (Stopwatch.isRunning s0); reflexivity).
    unfold sw_wf in W. rewrite R in W.
    subst s. unfold Stopwatch.clear, Stopwatch.state. cbn.
    rewrite R, S. repeat split; auto.
  - intros a H c. subst c.
    unfold App.pressSet, Input.triggerSet.
    apply N.ltb_lt in H. rewrite H. cbn [App.countdown].
    unfold Countdown.clear, Countdown.pause, Countdown.setInitialTime.
    cbn. destruct (Countdown.isRunning (App.countdown a)); cbn; split; reflexivity.
Qed.

Lemma clear_restores_baseline_witness :
  let a := App.mk (Input.type_digits ["4"; "2"]%string Input.new)
                  (Countdown.new "Start") in
  (0 < Input.inputMs (App.input a))%N
  /\ Countdown.remainingTime (Countdown.clear (App.countdown (App.pressSet a)))
     = 42000.
Proof.
  intros a.
  assert (H : (0 < Input.inputMs (App.input a))%N) by (vm_compute; reflexivity).
  split; [exact H|].
  exact (proj1 (proj2 (proj2 clear_restores_baseline) a H)).
Defined.

(** ** C8: [start()] twice *)

(** C8.  On both timers a second [start()] right after a first one, at
    whatever instants, changes nothing more, and after any history a timer
    holds at most one registered interval. *)
Theorem start_is_idempotent :
  (forall t1 t2 s,
     Stopwatch.start t2 (Stopwatch.start t1 s) = Stopwatch.start t1 s)
  /\ (forall t1 t2 c,
        Countdown.start t2 (Countdown.start t1 c) = Countdown.start t1 c)
  /\ (forall text evs,
        (List.length (Scheduler.live
                   (Stopwatch.sched (Stopwatch.run evs (Stopwatch.new text))))
         <= 1)%nat)
  /\ (forall text evs,
        (List.length (Scheduler.live
                   (Countdown.sched (Countdown.run evs (Countdown.new text))))
         <= 1)%nat).
Proof.
  split; [|split; [|split]].
  - intros t1 t2 s.
    destruct (Stopwatch.isRunning s) eqn:R; unfold Stopwatch.start; rewrite R.
    + now rewrite R.
    + reflexivity.
  - intros t1 t2 c.
    destruct (Countdown.isRunning c || (Countdown.remainingTime c <=? 0)) eqn:G;
      unfold Countdown.start; rewrite G.
    + now rewrite G.
    + reflexivity.
  - intros text evs.
    pose proof (sw_wf_run evs _ (sw_wf_new text)) as W. unfold sw_wf in W.
    destruct (Stopwatch.isRunning _).
    + destruct W as (h & _ & ->). cbn. lia.
    + rewrite W. cbn. lia.
  - intros text evs.
    pose proof (cd_wf_run evs _ (cd_wf_new text)) as W. unfold cd_wf in W.
    destruct (Countdown.isRunning _).
    + destruct W as (h & _ & ->). cbn. lia.
    + rewrite W. cbn. lia.
Qed.

(** ** C9: what the timers show is never negative *)

(** C9.  Under a monotone clock every value a stopwatch shows, on a tick or
    on clearing, is non-negative.  Every value a countdown shows is
    non-negative as long as the durations it is configured with are, which
    is always the case when it is driven through the keypad and the buttons:
    a tick shows either a positive distance to the deadline or the clamped
    0, whatever the clock. *)
Theorem shown_values_are_nonnegative :
  (forall text lo evs,
     Stopwatch.monotone lo evs ->
     Forall (fun v => 0 <= v)
       (Stopwatch.shown (Stopwatch.run evs (Stopwatch.new text))))
  /\ (forall text evs,
        Countdown.durations_ok evs ->
        Forall (fun v => 0 <= v)
          (Countdown.shown (Countdown.run evs (Countdown.new text))))
  /\ (forall text evs,
        Forall (fun v => 0 <= v)
          (Countdown.shown (App.countdown (App.run evs (App.new text)))))
  /\ (forall now c,
        0 <= hd 0 (Countdown.shown (Countdown.callback now c))).
Proof.
  split; [|split; [|split]].
  - intros text lo evs M.
    apply sw_nonneg_run with (lo := lo); [apply sw_wf_new| |exact M].
    repeat split; cbn; [lia|constructor|discriminate].
  - intros text evs D.
    apply (cd_nonneg_run evs (Countdown.new text) D).
    split; cbn; [lia|constructor].
  - intros text evs.
    apply (app_nonneg_run evs (App.new text)).
    split; cbn; [lia|constructor].
  - intros now c. unfold Countdown.callback.
    cbn [Countdown.set_remainingTime Countdown.remainingTime].
    destruct (Z.leb_spec (Countdown.endTime c - now) 0); cbn; lia.
Qed.

Lemma shown_values_are_nonnegative_witness :
  Stopwatch.shown
    (Stopwatch.run [Stopwatch.Start 100; Stopwatch.Tick 110; Stopwatch.Pause 115;
                    Stopwatch.Start 300; Stopwatch.Tick 310; Stopwatch.Clear]
       (Stopwatch.new "Start")) = [0; 20; 10]
  /\ Forall (fun v => 0 <= v) [0; 20; 10]
  /\ Forall (fun v => 0 <= v)
       (Countdown.shown
          (Countdown.run [Countdown.SetInitial 25; Countdown.Start 0;
                          Countdown.Tick 10; Countdown.Tick 30; Countdown.Clear]
             (Countdown.new "Start"))).
Proof.
  split; [reflexivity|]. split.
  - refine (proj1 shown_values_are_nonnegative "Start"%string 0
              [Stopwatch.Start 100; Stopwatch.Tick 110; Stopwatch.Pause 115;
               Stopwatch.Start 300; Stopwatch.Tick 310; Stopwatch.Clear] _).
    cbn. lia.
  - refine (proj1 (proj2 shown_values_are_nonnegative) "Start"%string
              [Countdown.SetInitial 25; Countdown.Start 0;
               Countdown.Tick 10; Countdown.Tick 30; Countdown.Clear] _).
    intros ms H. cbn in H.
    destruct H as [H|[H|[H|[H|[H|[]]]]]]; try discriminate H.
    injection H as <-. lia.
Defined.

(** ** C10: the clamping branch of the keypad *)

(** C10.  Every accepted digit press stores a whole number of seconds, at
    most 86_399_000 ms and so below [MAX_COUNTDOWN_MS], and logs nothing;
    over any sequence of digit presses and clears from a new keypad the
    clamping branch is never taken and the buffer stays within that bound. *)
Theorem keypad_never_clamps :
  (forall d m, accepts d m = true ->
     let m' := Input.handleNumberInput d m in
     (Input.inputMs m' mod 1000 = 0)%N
     /\ (Z.of_N (Input.inputMs m') <= 86399000 < MAX_COUNTDOWN_MS)
     /\ Input.warnings m' = Input.warnings m)
  /\ (forall ks,
        let m := Input.presses ks Input.new in
        ~ In Input.Clamped (Input.warnings m)
        /\ (Input.inputMs m mod 1000 = 0)%N
        /\ Z.of_N (Input.inputMs m) <= 86399000).
Proof.
  split.
  - intros d m Ha m'. unfold m'.
    rewrite (handleNumberInput_accepted _ _ Ha). cbn [Input.inputMs Input.warnings].
    unfold accepts in Ha. apply andb_true_iff in Ha as [_ Ha].
    apply negb_true_iff in Ha.
    destruct (accepted_value_bounds _ _ _ Ha) as [Hmod Hle]. cbn zeta in *.
    split; [exact Hmod|]. split; [|reflexivity].
    split; [lia | reflexivity].
  - intros ks m.
    destruct (presses_invariant ks Input.new) as [[Hmod Hle] Hw].
    + cbn. split; [reflexivity|lia].
    + cbn. auto.
    + split; [exact Hw|]. split; [exact Hmod|]. fold m in Hle. lia.
Qed.

Lemma keypad_never_clamps_witness :
  accepts "7" Input.new = true
  /\ Input.inputMs (Input.handleNumberInput "7" Input.new) = 7000%N
  /\ Input.warnings (Input.handleNumberInput "7" Input.new) = [].
Proof.
  assert (Ha : accepts "7" Input.new = true) by (vm_compute; reflexivity).
  split; [exact Ha|].
  pose proof (proj1 keypad_never_clamps "7"%string Input.new Ha) as H.
  split; [vm_compute; reflexivity | exact (proj2 (proj2 H))].
Defined.

(** * Further properties of the code *)

(** ** The formatter and the display *)

Section FormatterFacts.

Import TimeFormatter.

Lemma units_spec (ms : Z) :
  0 <= ms ->
  let '(h, m, s) := units ms in
  ms = h * MS_PER_HOUR + m * MS_PER_MINUTE + s * MS_PER_SECOND + Z.rem ms 1000
  /\ 0 <= h /\ 0 <= m < 60 /\ 0 <= s < 60 /\ 0 <= Z.rem ms 1000 < 1000
  /\ h = ms / MS_PER_HOUR.
Proof.
  intros H. unfold units, MS_PER_HOUR, MS_PER_MINUTE, MS_PER_SECOND.
  assert (T : 0 <= ms / 1000) by (apply Z.div_pos; lia).
  rewrite !Z.rem_mod_nonneg by lia.
  pose proof (Z.div_mod ms 1000 ltac:(lia)) as E1.
  pose proof (Z.mod_pos_bound ms 1000 ltac:(lia)) as B1.
  pose proof (Z.div_mod (ms / 1000) 3600 ltac:(lia)) as E2.
  pose proof (Z.mod_pos_bound (ms / 1000) 3600 ltac:(lia)) as B2.
  pose proof (Z.div_mod ((ms / 1000) mod 3600) 60 ltac:(lia)) as E3.
  pose proof (Z.mod_pos_bound ((ms / 1000) mod 3600) 60 ltac:(lia)) as B3.
  assert (E4 : (ms / 1000) mod 60 = ((ms / 1000) mod 3600) mod 60).
  { Z.to_euclidean_division_equations. lia. }
  assert (Hd : 0 <= (ms / 1000) mod 3600 / 60 < 60).
  { split; [apply Z.div_pos; lia | apply Z.div_lt_upper_bound; lia]. }
  assert (Hh : 0 <= ms / 1000 / 3600) by (apply Z.div_pos; lia).
  repeat split; try lia.
  rewrite Z.div_div by lia. reflexivity.
Qed.

Lemma plain_app (s1 s2 : string) :
  plain s1 = true -> plain s2 = true -> plain (s1 ++ s2) = true.
Proof.
  intros H1 H2. induction s1 as [|c s1 IH]; cbn in *; [exact H2|].
  apply andb_true_iff in H1 as [Hc H1]. rewrite Hc. cbn. auto.
Qed.

Lemma plain_fill (n : nat) : plain (Js.fill n "0") = true.
Proof. induction n as [|n IH]; [reflexivity | exact IH]. Qed.

Lemma digit_is_plain (c : ascii) (d : N) :
  Js.digit_value c = Some d -> Ascii.eqb c ":" = false.
Proof.
  intros H. apply Ascii.eqb_neq. intros ->. discriminate H.
Qed.

Lemma all_digits_plain (s : string) : all_digits s = true -> plain s = true.
Proof.
  induction s as [|c s IH]; cbn; [reflexivity|].
  destruct (Js.digit_value c) eqn:D; [|discriminate].
  intros H. rewrite (digit_is_plain _ _ D). cbn. auto.
Qed.

Lemma plain_toString (z : Z) : plain (toString z) = true.
Proof.
  unfold toString. destruct (z <? 0).
  - cbn. apply all_digits_plain, all_digits_toString.
  - apply all_digits_plain, all_digits_toString.
Qed.

Lemma plain_padStart (n : nat) (z : Z) :
  plain (Js.padStart n "0" (toString z)) = true.
Proof.
  unfold Js.padStart. apply plain_app; [apply plain_fill | apply plain_toString].
Qed.

Lemma split_plain (s : string) : plain s = true -> Display.split s = [s].
Proof.
  induction s as [|c s IH]; cbn; [reflexivity|].
  intros H. apply andb_true_iff in H as [Hc H]. apply negb_true_iff in Hc.
  rewrite Hc, (IH H). reflexivity.
Qed.

Lemma split_colon (s rest : string) :
  plain s = true ->
  Display.split (s ++ ":" ++ rest) = s :: Display.split rest.
Proof.
  induction s as [|c s IH]; cbn; [reflexivity|].
  intros H. apply andb_true_iff in H as [Hc H]. apply negb_true_iff in Hc.
  rewrite Hc. cbn in IH. rewrite (IH H). reflexivity.
Qed.

(** Splitting what [formatTime] joined gives the three padded units back. *)
Lemma split_formatTime (ms : Z) :
  Display.split (formatTime ms) =
    let '(h, m, s) := units ms in [pad2 h; pad2 m; pad2 s].
Proof.
  unfold formatTime. destruct (units ms) as [[h m] s]. cbn [map join].
  rewrite !split_colon by apply plain_padStart.
  rewrite split_plain by apply plain_padStart. reflexivity.
Qed.

(** The decimal writing of a number below 1000 has one, two or three
    characters. *)
Lemma toString_length_small (n : N) :
  (n < 1000)%N ->
  String.length (Js.toString n)
  = if (n <? 10)%N then 1%nat else if (n <? 100)%N then 2%nat else 3%nat.
Proof.
  intros H.
  assert (A : forallb
                (fun k => Nat.eqb (String.length (Js.toString (N.of_nat k)))
                            (if (N.of_nat k <? 10)%N then 1
                             else if (N.of_nat k <? 100)%N then 2 else 3))
                (seq 0 1000) = true) by (vm_compute; reflexivity).
  rewrite forallb_forall in A. specialize (A (N.to_nat n)).
  rewrite N2Nat.id in A. apply Nat.eqb_eq, A, in_seq. lia.
Qed.

Lemma pad2_small (z : Z) :
  0 <= z < 100 -> String.length (pad2 z) = 2%nat /\ all_digits (pad2 z) = true.
Proof.
  intros H. unfold pad2, toString, Js.padStart.
  destruct (Z.ltb_spec z 0); [lia|].
  split.
  - rewrite length_app, length_fill, toString_length_small by lia.
    destruct (N.ltb_spec (Z.to_N z) 10); [reflexivity|].
    destruct (N.ltb_spec (Z.to_N z) 100); [reflexivity|lia].
  - apply all_digits_app; [apply all_digits_fill | apply all_digits_toString].
Qed.

Lemma pad3_small (z : Z) :
  0 <= z < 1000 -> String.length (pad3 z) = 3%nat /\ all_digits (pad3 z) = true.
Proof.
  intros H. unfold pad3, toString, Js.padStart.
  destruct (Z.ltb_spec z 0); [lia|].
  split.
  - rewrite length_app, length_fill, toString_length_small by lia.
    destruct (N.ltb_spec (Z.to_N z) 10); [reflexivity|].
    destruct (N.ltb_spec (Z.to_N z) 100); reflexivity.
  - apply all_digits_app; [apply all_digits_fill | apply all_digits_toString].
Qed.

Lemma update_units (ms : Z) (d : Display.t) :
  Display.update ms d =
    let '(h, m, s) := units ms in
    Display.mk (pad2 h) (pad2 m) (pad2 s) (pad3 (Z.rem ms 1000)).
Proof.
  unfold Display.update. rewrite split_formatTime.
  destruct (units ms) as [[h m] s]. reflexivity.
Qed.

End FormatterFacts.

(** X1.  For a non-negative duration the three units [formatTime] computes
    and the remainder [formatMilliseconds] takes decompose the duration
    exactly: hours * 3_600_000 + minutes * 60_000 + seconds * 1000 + ms
    remainder, with minutes and seconds below 60 and the remainder below
    1000; the hours are [ms / 3_600_000], so at most 23 up to
    [MAX_COUNTDOWN_MS], and no unit is capped above that. *)
Theorem formatter_units_decompose :
  forall ms, 0 <= ms ->
    let '(h, m, s) := TimeFormatter.units ms in
    ms = h * MS_PER_HOUR + m * MS_PER_MINUTE + s * MS_PER_SECOND + Z.rem ms 1000
    /\ 0 <= m < 60 /\ 0 <= s < 60 /\ 0 <= Z.rem ms 1000 < 1000
    /\ h = ms / MS_PER_HOUR
    /\ (ms <= MAX_COUNTDOWN_MS -> 0 <= h <= 23).
Proof.
  intros ms H. pose proof (units_spec ms H) as U.
  destruct (TimeFormatter.units ms) as [[h m] s].
  destruct U as (E & Hh & Hm & Hs & Hr & Hq).
  split; [exact E|]. split; [exact Hm|]. split; [exact Hs|].
  split; [exact Hr|]. split; [exact Hq|].
  intros Hmax. split; [exact Hh|].
  unfold MAX_COUNTDOWN_MS, MS_PER_HOUR in *.
  subst h. apply Z.lt_succ_r. apply Z.div_lt_upper_bound; lia.
Qed.

Lemma formatter_units_decompose_witness :
  TimeFormatter.units 45296789 = (12, 34, 56)
  /\ 45296789 = 12 * MS_PER_HOUR + 34 * MS_PER_MINUTE + 56 * MS_PER_SECOND
                + Z.rem 45296789 1000.
Proof.
  split; [reflexivity|].
  assert (H : 0 <= 45296789) by lia.
  exact (proj1 (formatter_units_decompose 45296789 H)).
Defined.

(** X2.  [DisplayManager.update(ms)] overwrites the four texts with the
    padded hours, minutes and seconds of [ms] and its padded millisecond
    remainder, for every integer [ms] and whatever was displayed: splitting
    the formatted time at the colons always gives the three units back. *)
Theorem display_update_writes_units :
  forall ms d,
    Display.update ms d =
      let '(h, m, s) := TimeFormatter.units ms in
      Display.mk (pad2 h) (pad2 m) (pad2 s) (pad3 (Z.rem ms 1000)).
Proof. exact update_units. Qed.

(** X3.  Below one hundred hours the display has the fixed shape HH:MM:SS
    and a three-digit millisecond field: each of the three texts is two
    decimal digits, the fourth is three, and the formatted time is eight
    characters long. *)
Theorem display_has_fixed_width :
  forall ms d, 0 <= ms < 100 * MS_PER_HOUR ->
    let v := Display.update ms d in
    String.length (Display.hours v) = 2%nat
    /\ String.length (Display.minutes v) = 2%nat
    /\ String.length (Display.seconds v) = 2%nat
    /\ String.length (Display.milliseconds v) = 3%nat
    /\ all_digits (Display.hours v) = true
    /\ all_digits (Display.minutes v) = true
    /\ all_digits (Display.seconds v) = true
    /\ all_digits (Display.milliseconds v) = true
    /\ String.length (TimeFormatter.formatTime ms) = 8%nat.
Proof.
  intros ms d H v. subst v. rewrite update_units.
  unfold TimeFormatter.formatTime.
  pose proof (units_spec ms (proj1 H)) as U.
  destruct (TimeFormatter.units ms) as [[h m] s].
  destruct U as (E & Hh & Hm & Hs & Hr & Hq).
  assert (Hh' : 0 <= h < 100).
  { split; [exact Hh|]. subst h. unfold MS_PER_HOUR in *.
    apply Z.div_lt_upper_bound; lia. }
  destruct (pad2_small h Hh') as [L1 D1].
  destruct (pad2_small m ltac:(lia)) as [L2 D2].
  destruct (pad2_small s ltac:(lia)) as [L3 D3].
  destruct (pad3_small (Z.rem ms 1000) Hr) as [L4 D4].
  cbn [Display.hours Display.minutes Display.seconds Display.milliseconds].
  repeat split; try assumption.
  cbn [map TimeFormatter.join]. fold (pad2 h) (pad2 m) (pad2 s).
  rewrite !length_app, L1, L2, L3. reflexivity.
Qed.

Lemma display_has_fixed_width_witness :
  Display.update 45296789 (Display.mk "" "" "" "")
  = Display.mk "12" "34" "56" "789"
  /\ String.length (TimeFormatter.formatTime 45296789) = 8%nat.
Proof.
  split; [vm_compute; reflexivity|].
  assert (H : 0 <= 45296789 < 100 * MS_PER_HOUR) by (unfold MS_PER_HOUR; lia).
  pose proof (display_has_fixed_width 45296789 (Display.mk "" "" "" "") H) as W.
  exact (proj2 (proj2 (proj2 (proj2 (proj2 (proj2 (proj2 (proj2 W)))))))).
Defined.

(** ** The keypad register, read as a number *)

Section RegisterFacts.

Import Js.

Lemma digit_value_bound (c : ascii) (d : N) :
  digit_value c = Some d -> (d <= 9)%N.
Proof.
  unfold digit_value.
  destruct ((48 <=? N_of_ascii c) && (N_of_ascii c <=? 57))%N eqn:E; [|discriminate].
  intros H. injection H as <-.
  apply andb_true_iff in E as [E1 E2]. apply N.leb_le in E1, E2. lia.
Qed.

Lemma parse_digits_app (s1 s2 : string) :
  forall acc, all_digits s1 = true ->
    parse_digits acc (s1 ++ s2) = parse_digits (parse_digits acc s1) s2.
Proof.
  induction s1 as [|c s1 IH]; intros acc H; cbn in *; [reflexivity|].
  destruct (digit_value c); [now apply IH|discriminate].
Qed.

Lemma parse_digits_acc (s : string) :
  forall acc, all_digits s = true ->
    (parse_digits acc s
     = acc * 10 ^ N.of_nat (String.length s) + parse_digits 0 s
     /\ parse_digits 0 s < 10 ^ N.of_nat (String.length s))%N.
Proof.
  induction s as [|c s IH]; intros acc H.
  - cbn. lia.
  - cbn [all_digits] in H. cbn [parse_digits String.length].
    destruct (digit_value c) as [d|] eqn:D; [|discriminate].
    pose proof (digit_value_bound _ _ D) as B.
    destruct (IH (10 * acc + d)%N H) as [E1 _].
    destruct (IH (10 * 0 + d)%N H) as [E2 _].
    destruct (IH 0%N H) as [_ L].
    rewrite Nat2N.inj_succ, N.pow_succ_r'.
    set (p := (10 ^ N.of_nat (String.length s))%N) in *.
    split; [rewrite E1, E2; lia | rewrite E2; nia].
Qed.

Lemma parse_digits_fill (k : nat) (s : string) :
  parse_digits 0 (fill k "0" ++ s) = parse_digits 0 s.
Proof. induction k as [|k IH]; [reflexivity | exact IH]. Qed.

(** Evaluates [digit_value] on a literal character. *)
Ltac eval_digit :=
  match goal with
  | |- context [digit_value ?c] =>
      let v := eval vm_compute in (digit_value c) in
      change (digit_value c) with v; cbv iota
  end.

Lemma parse_uint_acc (d : Decimal.uint) :
  forall acc, parse_digits (Npos acc) (NilEmpty.string_of_uint d)
              = Npos (Pos.of_uint_acc d acc).
Proof.
  induction d; intros acc; cbn [NilEmpty.string_of_uint Pos.of_uint_acc];
    [reflexivity | ..];
    cbn [parse_digits]; eval_digit; rewrite <- IHd; f_equal; lia.
Qed.

Lemma parse_uint (d : Decimal.uint) :
  parse_digits 0 (NilEmpty.string_of_uint d) = Pos.of_uint d.
Proof.
  induction d; cbn [NilEmpty.string_of_uint Pos.of_uint];
    [reflexivity | ..];
    cbn [parse_digits]; eval_digit;
    [exact IHd | rewrite <- parse_uint_acc; reflexivity ..].
Qed.

(** Reading back the decimal writing of a number gives the number. *)
Lemma parseInt_toString (n : N) : parseInt (toString n) = n.
Proof.
  unfold parseInt, toString, NilZero.string_of_uint.
  rewrite <- (DecimalN.Unsigned.of_to n) at 2. unfold N.of_uint.
  destruct (N.to_uint n) eqn:E; rewrite <- parse_uint; reflexivity.
Qed.

Lemma substring_all (s : string) : substring 0 (String.length s) s = s.
Proof. induction s as [|c s IH]; cbn; [reflexivity | now rewrite IH]. Qed.

(** A string is its first [a] characters followed by the others. *)
Lemma substring_cut (s : string) :
  forall a, (a <= String.length s)%nat ->
    s = (substring 0 a s ++ substring a (String.length s - a) s)%string.
Proof.
  induction s as [|c s IH]; intros a H.
  - destruct a; [reflexivity | cbn in H; lia].
  - destruct a as [|a].
    + cbn [substring append]. cbn [String.length Nat.sub].
      now rewrite substring_all.
    + cbn in H. cbn [substring append String.length Nat.sub].
      f_equal. apply IH. lia.
Qed.

(** The last five characters of a run of digits are the number modulo
    100000. *)
Lemma parse_last5 (s : string) :
  all_digits s = true -> (5 <= String.length s)%nat ->
  (parse_digits 0 (substring (String.length s - 5) 5 s)
   = parse_digits 0 s mod 100000)%N.
Proof.
  intros A L.
  set (a := (String.length s - 5)%nat).
  pose proof (substring_cut s a ltac:(lia)) as C.
  replace (String.length s - a)%nat with 5%nat in C by lia.
  set (hd := substring 0 a s) in *. set (tl := substring a 5 s) in *.
  assert (At : all_digits tl = true) by now apply all_digits_substring.
  assert (Ah : all_digits hd = true) by now apply all_digits_substring.
  assert (Lt : String.length tl = 5%nat) by (apply length_substring; lia).
  rewrite C at 1. rewrite parse_digits_app by exact Ah.
  destruct (parse_digits_acc tl (parse_digits 0 hd) At) as [E B].
  rewrite Lt in E, B. change (10 ^ N.of_nat 5)%N with 100000%N in E, B.
  rewrite E. symmetry.
  rewrite N.add_comm, N.Div0.mod_add. now apply N.mod_small.
Qed.

(** Hours, minutes and seconds cut from six digits are the number's
    ten-thousands, its hundreds modulo 100 and its remainder modulo 100. *)
Lemma parse_fields (r : string) :
  String.length r = 6%nat -> all_digits r = true ->
  (parseInt (substring 0 2 r) = parseInt r / 10000
   /\ parseInt (substring 2 2 r) = (parseInt r / 100) mod 100
   /\ parseInt (substring 4 2 r) = parseInt r mod 100)%N.
Proof.
  intros L A.
  destruct r as [|c1 [|c2 [|c3 [|c4 [|c5 [|c6 [|c7 r]]]]]]]; try discriminate L.
  cbn [all_digits] in A.
  destruct (digit_value c1) as [d1|] eqn:D1; [|discriminate].
  destruct (digit_value c2) as [d2|] eqn:D2; [|discriminate].
  destruct (digit_value c3) as [d3|] eqn:D3; [|discriminate].
  destruct (digit_value c4) as [d4|] eqn:D4; [|discriminate].
  destruct (digit_value c5) as [d5|] eqn:D5; [|discriminate].
  destruct (digit_value c6) as [d6|] eqn:D6; [|discriminate].
  apply digit_value_bound in D1 as B1, D2 as B2, D3 as B3, D4 as B4,
    D5 as B5, D6 as B6.
  unfold parseInt. cbn [substring parse_digits].
  rewrite ?D1, ?D2, ?D3, ?D4, ?D5, ?D6. cbn [parse_digits].
  repeat split; zify; Z.to_euclidean_division_equations; lia.
Qed.

End RegisterFacts.

Lemma register_fields :
  forall c dv m,
    Js.digit_value c = Some dv ->
    let d := String c EmptyString in
    let reg := ((Input.inputMs m / 1000) mod 100000 * 10 + dv)%N in
    (Js.parseInt (Input.newNumString d m) = reg
     /\ Input.newHours d m = reg / 10000
     /\ Input.newMinutes d m = (reg / 100) mod 100
     /\ Input.newSeconds d m = reg mod 100)%N.
Proof.
  intros c dv m D d reg.
  assert (Hd : Js.is_digit d = true) by (unfold d; cbn; now rewrite D).
  destruct (register_digits d m Hd) as (L & A & S1 & S2 & S3).
  assert (V : Js.parseInt (Input.newNumString d m) = reg).
  { unfold Js.parseInt, Input.newNumString.
    destruct (padStart_spec _ (all_digits_toString
                (Input.inputMs m / Z.to_N MS_PER_SECOND))) as [Lc Ac].
    fold (Input.currentNumString m) in Lc, Ac.
    rewrite slice_last5 by lia.
    rewrite parse_digits_app by now apply all_digits_substring.
    rewrite parse_last5 by (assumption || lia).
    unfold Input.currentNumString at 1, Js.padStart.
    rewrite parse_digits_fill.
    fold (Js.parseInt (Js.toString (Input.inputMs m / Z.to_N MS_PER_SECOND))).
    rewrite parseInt_toString.
    unfold d. cbn [Js.parse_digits]. rewrite D.
    unfold reg. change (Z.to_N MS_PER_SECOND) with 1000%N. lia. }
  destruct (parse_fields _ L A) as (F1 & F2 & F3).
  unfold Input.newHours, Input.newMinutes, Input.newSeconds.
  rewrite S1, S2, S3, F1, F2, F3, V. repeat split.
Qed.

(** X4.  What [handleNumberInput] shifts is a number: with [secs] the
    buffered total of seconds, the register after a digit [dv] is
    [reg = (secs mod 100000) * 10 + dv], and the fields tested and stored are
    its ten-thousands (hours), its hundreds modulo 100 (minutes) and its
    remainder modulo 100 (seconds). *)
Theorem keypad_register_arithmetic :
  forall c dv m,
    Js.digit_value c = Some dv ->
    let d := String c EmptyString in
    let reg := ((Input.inputMs m / 1000) mod 100000 * 10 + dv)%N in
    (Js.parseInt (Input.newNumString d m) = reg
     /\ Input.newHours d m = reg / 10000
     /\ Input.newMinutes d m = (reg / 100) mod 100
     /\ Input.newSeconds d m = reg mod 100)%N.
Proof. exact register_fields. Qed.

Lemma keypad_register_arithmetic_witness :
  Js.digit_value "6" = Some 6%N
  /\ Input.newHours "6" (Input.mk 3105000 [] []) = 3%N
  /\ Input.newMinutes "6" (Input.mk 3105000 [] []) = 10%N
  /\ Input.newSeconds "6" (Input.mk 3105000 [] []) = 56%N.
Proof.
  assert (D : Js.digit_value "6" = Some 6%N) by reflexivity.
  split; [exact D|].
  pose proof (keypad_register_arithmetic "6"%char 6%N
                (Input.mk 3105000 [] []) D) as H.
  exact (proj2 H).
Defined.

Section KeypadFacts.

Import Input.

Lemma press_shows_buffer (k : key) (m : t) :
  hd 0%N (shown m) = inputMs m -> hd 0%N (shown (press k m)) = inputMs (press k m).
Proof.
  intros H. destruct k as [d|]; cbn [press]; [|reflexivity].
  destruct (accepts d m) eqn:Ha.
  - rewrite (handleNumberInput_accepted _ _ Ha). reflexivity.
  - destruct (handleNumberInput_rejected _ _ Ha) as [-> ->]. exact H.
Qed.

Lemma presses_show_buffer (ks : list key) (m : t) :
  hd 0%N (shown m) = inputMs m ->
  hd 0%N (shown (presses ks m)) = inputMs (presses ks m).
Proof.
  revert m. induction ks as [|k ks IH]; intros m H; [exact H|].
  cbn. apply IH. now apply press_shows_buffer.
Qed.

End KeypadFacts.

(** X5.  After any sequence of digit presses and clears on a new keypad the
    last value handed to its display is the buffered value: a refused press
    changes neither, an accepted press and a clear change both. *)
Theorem keypad_display_shows_buffer :
  forall ks,
    let m := Input.presses ks Input.new in
    hd 0%N (Input.shown m) = Input.inputMs m
    /\ Input.shown m <> [].
Proof.
  intros ks m. split.
  - apply presses_show_buffer. reflexivity.
  - assert (G : forall m0, Input.shown m0 <> [] ->
                           Input.shown (Input.presses ks m0) <> []).
    { induction ks as [|k ks IH]; intros m0 H; [exact H|].
      cbn. apply IH. destruct k as [d|]; cbn [Input.press]; [|discriminate].
      destruct (accepts d m0) eqn:Ha.
      - rewrite (handleNumberInput_accepted _ _ Ha). discriminate.
      - now rewrite (proj2 (handleNumberInput_rejected _ _ Ha)). }
    apply G. discriminate.
Qed.

(** X6.  The whole effect of a digit press, in numbers.  With
    [reg = (secs mod 100000) * 10 + dv] as above, the press is accepted
    exactly when [reg / 10000 <= 23], [(reg / 100) mod 100 <= 59] and
    [reg mod 100 <= 59]; it then buffers
    [(reg / 10000) * 3600 + ((reg / 100) mod 100) * 60 + reg mod 100]
    seconds; otherwise the buffer and the display keep their value.  An
    argument that is not one decimal digit changes neither and is logged as
    invalid. *)
Theorem keypad_press_value :
  (forall c dv m,
     Js.digit_value c = Some dv ->
     let d := String c EmptyString in
     let reg := ((Input.inputMs m / 1000) mod 100000 * 10 + dv)%N in
     let ok := ((reg / 10000 <=? 23) && ((reg / 100) mod 100 <=? 59)
                && (reg mod 100 <=? 59))%N in
     accepts d m = ok
     /\ Input.inputMs (Input.handleNumberInput d m)
        = (if ok
           then (reg / 10000 * 3600 + (reg / 100) mod 100 * 60 + reg mod 100)
                * 1000
           else Input.inputMs m)%N
     /\ (ok = false ->
         Input.shown (Input.handleNumberInput d m) = Input.shown m))
  /\ (forall d m,
        Js.is_digit d = false ->
        Input.handleNumberInput d m = Input.warn Input.InvalidInput m).
Proof.
  split.
  - intros c dv m D d reg ok.
    destruct (register_fields c dv m D) as (_ & H & M & S).
    fold d reg in H, M, S.
    assert (A : accepts d m = ok).
    { unfold accepts, ok. rewrite H, M, S.
      replace (Js.is_digit d) with true by (unfold d; cbn; now rewrite D).
      cbn [andb]. rewrite !negb_orb, <- !N.leb_antisym. reflexivity. }
    split; [exact A|].
    destruct ok eqn:O.
    + rewrite (handleNumberInput_accepted _ _ A). cbn [Input.inputMs].
      rewrite H, M, S. split; [lia | discriminate].
    + destruct (handleNumberInput_rejected _ _ A) as [E1 E2]. auto.
  - intros d m H. unfold Input.handleNumberInput. now rewrite H.
Qed.

Lemma keypad_press_value_witness :
  Js.digit_value "3" = Some 3%N
  /\ Input.inputMs (Input.handleNumberInput "3" (Input.mk 12000 [] [])) = 83000%N
  /\ Js.is_digit "12" = false
  /\ Input.inputMs (Input.handleNumberInput "12" (Input.mk 12000 [] [])) = 12000%N.
Proof.
  assert (D : Js.digit_value "3" = Some 3%N) by reflexivity.
  assert (I : Js.is_digit "12" = false) by reflexivity.
  split; [exact D|].
  split; [exact (proj1 (proj2 (proj1 keypad_press_value "3"%char 3%N
                                 (Input.mk 12000 [] []) D)))|].
  split; [exact I|].
  exact (f_equal Input.inputMs
           (proj2 keypad_press_value "12"%string (Input.mk 12000 [] []) I)).
Defined.

(** X7.  What the entry form displays after an accepted press is the three
    fields of the register, each padded to two digits, and 000
    milliseconds: formatting the stored value gives back the hours, minutes
    and seconds that were parsed. *)
Theorem keypad_display_agrees_with_fields :
  forall d m shown,
    accepts d m = true ->
    let m' := Input.handleNumberInput d m in
    TimeFormatter.units (Z.of_N (Input.inputMs m'))
    = (Z.of_N (Input.newHours d m), Z.of_N (Input.newMinutes d m),
       Z.of_N (Input.newSeconds d m))
    /\ Display.update (Z.of_N (Input.inputMs m')) shown
       = Display.mk (pad2 (Z.of_N (Input.newHours d m)))
                    (pad2 (Z.of_N (Input.newMinutes d m)))
                    (pad2 (Z.of_N (Input.newSeconds d m))) "000".
Proof.
  intros d m shown Ha m'. subst m'.
  rewrite (handleNumberInput_accepted _ _ Ha). cbn [Input.inputMs].
  unfold accepts in Ha. apply andb_true_iff in Ha as [_ Hv].
  apply negb_true_iff in Hv.
  apply orb_false_iff in Hv as [Hv Hs]. apply orb_false_iff in Hv as [Hh Hm].
  apply N.ltb_ge in Hh, Hm, Hs.
  set (h := Input.newHours d m) in *. set (mi := Input.newMinutes d m) in *.
  set (s := Input.newSeconds d m) in *.
  set (v := Z.of_N (h * 3600000 + mi * 60000 + s * 1000)).
  assert (V : v = Z.of_N h * 3600000 + Z.of_N mi * 60000 + Z.of_N s * 1000)
    by (unfold v; lia).
  assert (U : TimeFormatter.units v = (Z.of_N h, Z.of_N mi, Z.of_N s)).
  { unfold TimeFormatter.units, MS_PER_SECOND.
    assert (T : v / 1000 = Z.of_N h * 3600 + Z.of_N mi * 60 + Z.of_N s).
    { rewrite V. Z.to_euclidean_division_equations. lia. }
    rewrite T. rewrite !Z.rem_mod_nonneg by lia.
    f_equal; [f_equal|]; Z.to_euclidean_division_equations; lia. }
  split; [exact U|].
  rewrite update_units, U.
  f_equal. unfold pad3. replace (Z.rem v 1000) with 0; [reflexivity|].
  rewrite V. rewrite Z.rem_mod_nonneg by lia.
  Z.to_euclidean_division_equations. lia.
Qed.

Lemma keypad_display_agrees_with_fields_witness :
  accepts "6" (Input.mk 3105000 [] []) = true
  /\ Display.update
       (Z.of_N (Input.inputMs (Input.handleNumberInput "6" (Input.mk 3105000 [] []))))
       (Display.mk "" "" "" "")
     = Display.mk "03" "10" "56" "000".
Proof.
  assert (A : accepts "6" (Input.mk 3105000 [] []) = true)
    by (vm_compute; reflexivity).
  split; [exact A|].
  pose proof (proj2 (keypad_display_agrees_with_fields "6"%string
                       (Input.mk 3105000 [] []) (Display.mk "" "" "" "") A)) as H.
  cbv zeta in H. rewrite H. vm_compute. reflexivity.
Defined.

(** ** The stopwatch *)

Section StopwatchView.

Import Stopwatch.

Lemma sw_view_step (text : string) (s : t) (e : event) :
  sw_wf s ->
  hd 0 (shown s) = elapsedTime s /\ sw_captioned text s ->
  hd 0 (shown (step s e)) = elapsedTime (step s e)
  /\ sw_captioned text (step s e).
Proof.
  intros W [V C]. unfold sw_captioned in *.
  destruct e; cbn [step].
  - unfold start. destruct (isRunning s) eqn:R; cbn; rewrite ?R; auto.
  - unfold pause. destruct (isRunning s) eqn:R; cbn; rewrite ?R; auto.
  - unfold toggleStartPause, pause, start.
    destruct (isRunning s) eqn:R; cbn; auto.
  - destruct (isRunning s) eqn:R.
    + rewrite sw_tick_running by assumption. unfold callback. cbn.
      rewrite R. auto.
    + rewrite sw_tick_stopped by assumption. rewrite R. auto.
  - unfold clear, pause. destruct (isRunning s) eqn:R; cbn; rewrite ?R; auto.
  - unfold reset, clear, pause.
    destruct (isRunning s) eqn:R; cbn; rewrite ?R; auto.
Qed.

Lemma sw_steady_step (lo : Z) (s : t) (e : event) :
  sw_wf s -> sw_steady lo s -> sw_keeps e = true -> monotone lo [e] ->
  sw_steady (match e with
             | Start now | Pause now | Toggle now | Tick now => now
             | Clear | Reset => lo
             end) (step s e).
Proof.
  intros W (D & V & A) K M. unfold sw_steady.
  destruct e; cbn [step]; cbn in M; try discriminate K.
  - unfold start. destruct (isRunning s) eqn:R; cbn.
    + rewrite R. repeat split; auto. intros _. specialize (A eq_refl). lia.
    + repeat split; auto. intros _. lia.
  - unfold pause. destruct (isRunning s) eqn:R; cbn.
    + repeat split; auto. discriminate.
    + rewrite R. repeat split; auto. discriminate.
  - unfold toggleStartPause, pause, start. destruct (isRunning s) eqn:R; cbn.
    + repeat split; auto. discriminate.
    + repeat split; auto. intros _. lia.
  - destruct (isRunning s) eqn:R.
    + rewrite sw_tick_running by assumption. unfold callback. cbn [shown elapsedTime startTime isRunning hd].
      specialize (A eq_refl). split; [|split; [reflexivity | intros _; lia]].
      destruct (shown s) as [|b rest] eqn:S; [exact I|].
      cbn in V. split; [lia | exact D].
    + rewrite sw_tick_stopped by assumption. rewrite R.
      repeat split; auto. discriminate.
Qed.

Lemma sw_steady_run (evs : list event) (lo : Z) (s : t) :
  sw_wf s -> sw_steady lo s -> forallb sw_keeps evs = true ->
  monotone lo evs -> descending (shown (run evs s)).
Proof.
  revert lo s. induction evs as [|e evs IH]; intros lo s W N K M.
  - exact (proj1 N).
  - cbn [run fold_left]. cbn [forallb] in K. apply andb_true_iff in K as [Ke K].
    assert (M1 : monotone lo [e]) by (destruct e; cbn in *; tauto).
    pose proof (sw_steady_step lo s e W N Ke M1) as N'.
    apply sw_wf_step with (e := e) in W.
    destruct e; cbn in M; (eapply IH; [exact W | exact N' | exact K | tauto]).
Qed.

End StopwatchView.

(** X8.  After any history the stopwatch's display shows the elapsed time
    it stores, and its button is captioned for the next click: [Pause]
    exactly while it runs, otherwise [Start] (or the caption of the markup,
    as long as no method has written one). *)
Theorem stopwatch_view_is_consistent :
  forall text evs,
    let s := Stopwatch.run evs (Stopwatch.new text) in
    hd 0 (Stopwatch.shown s) = Stopwatch.elapsedTime s
    /\ (Stopwatch.isRunning s = true -> Stopwatch.caption s = "Pause"%string)
    /\ (Stopwatch.isRunning s = false ->
        Stopwatch.caption s = "Start"%string \/ Stopwatch.caption s = text).
Proof.
  intros text evs s.
  assert (G : forall s0, sw_wf s0 ->
                hd 0 (Stopwatch.shown s0) = Stopwatch.elapsedTime s0
                /\ sw_captioned text s0 ->
                hd 0 (Stopwatch.shown (Stopwatch.run evs s0))
                = Stopwatch.elapsedTime (Stopwatch.run evs s0)
                /\ sw_captioned text (Stopwatch.run evs s0)).
  { induction evs as [|e evs IH]; intros s0 W H; [exact H|].
    cbn. apply IH; [now apply sw_wf_step | now apply sw_view_step]. }
  destruct (G (Stopwatch.new text) (sw_wf_new text)) as [V C].
  { split; [reflexivity | right; reflexivity]. }
  fold s in V, C. unfold sw_captioned in C.
  split; [exact V|]. split; intros R; rewrite R in C; exact C.
Qed.

(** X9.  A stopwatch never runs backwards: under a monotone clock, over any
    history of starts, pauses and ticks without a clear, the values shown
    never decrease, across pauses and resumptions too. *)
Theorem stopwatch_never_runs_backwards :
  forall text lo evs,
    Stopwatch.monotone lo evs ->
    forallb sw_keeps evs = true ->
    descending (Stopwatch.shown (Stopwatch.run evs (Stopwatch.new text))).
Proof.
  intros text lo evs M K.
  apply sw_steady_run with (lo := lo); [apply sw_wf_new | | exact K | exact M].
  repeat split; cbn; auto. discriminate.
Qed.

Lemma stopwatch_never_runs_backwards_witness :
  let evs := [Stopwatch.Start 100; Stopwatch.Tick 110; Stopwatch.Pause 115;
              Stopwatch.Toggle 300; Stopwatch.Tick 310; Stopwatch.Tick 325] in
  Stopwatch.shown (Stopwatch.run evs (Stopwatch.new "Start")) = [35; 20; 10]
  /\ descending (Stopwatch.shown (Stopwatch.run evs (Stopwatch.new "Start"))).
Proof.
  intros evs. split; [reflexivity|].
  apply (stopwatch_never_runs_backwards "Start" 0 evs); [cbn; lia | reflexivity].
Defined.

(** ** The countdown *)

Section CountdownView.

Import Countdown.

Lemma cd_view_fire (h : nat) (now : Z) (c : t) :
  hd 0 (shown c) = remainingTime c ->
  hd 0 (shown (fire h now c)) = remainingTime (fire h now c).
Proof.
  intros V. unfold fire. destruct (Scheduler.is_live h (sched c)); [|exact V].
  unfold callback. cbn [set_remainingTime remainingTime].
  destruct (endTime c - now <=? 0); [|reflexivity].
  unfold pause. cbn. destruct (isRunning c); reflexivity.
Qed.

Lemma cd_view_tick (now : Z) (c : t) :
  hd 0 (shown c) = remainingTime c ->
  hd 0 (shown (tick now c)) = remainingTime (tick now c).
Proof.
  unfold tick. generalize (rev (Scheduler.live (sched c))). intros hs.
  revert c. induction hs as [|h hs IH]; intros c V; [exact V|].
  cbn. apply IH. now apply cd_view_fire.
Qed.

Lemma cd_view_start (now : Z) (c : t) :
  hd 0 (shown c) = remainingTime c ->
  hd 0 (shown (start now c)) = remainingTime (start now c).
Proof.
  unfold start. destruct (isRunning c || (remainingTime c <=? 0)); auto.
Qed.

Lemma cd_view_pause (c : t) :
  hd 0 (shown c) = remainingTime c ->
  hd 0 (shown (pause c)) = remainingTime (pause c).
Proof. unfold pause. destruct (isRunning c); auto. Qed.

Lemma cd_view_step (c : t) (e : event) :
  hd 0 (shown c) = remainingTime c ->
  hd 0 (shown (step c e)) = remainingTime (step c e).
Proof.
  intros V. destruct e; cbn [step].
  - reflexivity.
  - now apply cd_view_start.
  - now apply cd_view_pause.
  - unfold continueCountdown.
    destruct (isRunning c || (remainingTime c <=? 0)); [exact V|].
    now apply cd_view_start.
  - unfold toggleStartPauseContinue, continueCountdown.
    destruct (isRunning c); [now apply cd_view_pause|].
    destruct (caption c =? "Start")%string; [now apply cd_view_start|].
    cbn [orb]. destruct (remainingTime c <=? 0); [exact V|].
    now apply cd_view_start.
  - now apply cd_view_tick.
  - reflexivity.
  - reflexivity.
Qed.

(** The guard of [continueCountdown] is the guard of [start]. *)
Lemma continue_is_start (now : Z) (c : t) :
  continueCountdown now c = start now c.
Proof.
  unfold continueCountdown.
  destruct (isRunning c || (remainingTime c <=? 0)) eqn:G; [|reflexivity].
  unfold start. now rewrite G.
Qed.

Lemma toggle_is_pause_or_start (now : Z) (c : t) :
  toggleStartPauseContinue now c = if isRunning c then pause c else start now c.
Proof.
  unfold toggleStartPauseContinue. rewrite continue_is_start.
  destruct (isRunning c); [reflexivity|].
  destruct (caption c =? "Start")%string; reflexivity.
Qed.

Lemma cd_bounded_step (top lo : Z) (c : t) (e : event) :
  cd_wf c -> cd_bounded top lo c -> cd_no_set e = true -> 0 <= top ->
  cd_monotone lo [e] ->
  cd_bounded top (cd_clock lo e) (step c e).
Proof.
  intros W (B & T & A) K Ht M.
  assert (St : forall now, lo <= now -> cd_bounded top now (start now c)).
  { intros now L. unfold cd_bounded, start.
    destruct (isRunning c) eqn:R; cbn [orb].
    - rewrite R. specialize (A eq_refl).
      split; [exact B|]. split; [exact T|]. intros _. lia.
    - destruct (remainingTime c <=? 0); cbn.
      + rewrite R. split; [exact B|]. split; [exact T|]. discriminate.
      + split; [exact B|]. split; [exact T|]. intros _. lia. }
  assert (Pa : forall now, cd_bounded top now (pause c)).
  { intros now. unfold cd_bounded, pause. destruct (isRunning c) eqn:R; cbn.
    - split; [exact B|]. split; [exact T|]. discriminate.
    - rewrite R. split; [exact B|]. split; [exact T|]. discriminate. }
  destruct e; cbn [step cd_clock]; cbn in M; try discriminate K.
  - apply St. lia.
  - apply Pa.
  - rewrite continue_is_start. apply St. lia.
  - rewrite toggle_is_pause_or_start.
    destruct (isRunning c); [apply Pa | apply St; lia].
  - unfold cd_bounded. destruct (isRunning c) eqn:R.
    + rewrite cd_tick_running by assumption. specialize (A eq_refl).
      destruct (Z.lt_ge_cases now (endTime c)).
      * rewrite cd_callback_before by assumption.
        cbn [remainingTime initialTimeMs isRunning endTime].
        split; [lia|]. split; [exact T|]. intros _. lia.
      * rewrite cd_callback_after by assumption.
        cbn [remainingTime initialTimeMs isRunning endTime].
        split; [lia|]. split; [exact T|]. discriminate.
    + rewrite cd_tick_stopped by assumption. rewrite R.
      split; [exact B|]. split; [exact T|]. discriminate.
  - specialize (Pa lo). destruct Pa as (P1 & P2 & P3).
    unfold cd_bounded, clear. cbn.
    split; [lia|]. split; [exact P2|].
    intros R. specialize (P3 R). lia.
  - unfold cd_bounded, reset, pause. destruct (isRunning c) eqn:R; cbn.
    + split; [lia|]. split; [exact Ht|]. discriminate.
    + split; [lia|]. split; [exact Ht|]. rewrite R. discriminate.
Qed.

Lemma cd_bounded_run (evs : list event) (top lo : Z) (c : t) :
  cd_wf c -> cd_bounded top lo c -> forallb cd_no_set evs = true ->
  0 <= top -> cd_monotone lo evs ->
  exists lo', cd_bounded top lo' (run evs c).
Proof.
  revert lo c. induction evs as [|e evs IH]; intros lo c W B K Ht M.
  - now exists lo.
  - cbn [run fold_left]. cbn [forallb] in K. apply andb_true_iff in K as [Ke K].
    assert (M1 : cd_monotone lo [e]) by (destruct e; cbn in *; tauto).
    pose proof (cd_bounded_step top lo c e W B Ke Ht M1) as B'.
    apply cd_wf_step with (e := e) in W.
    apply (IH (cd_clock lo e) _ W B' K Ht).
    destruct e; cbn in M; cbn [cd_clock]; tauto.
Qed.

Lemma ascending_cons (v : Z) (l : list Z) :
  ascending l -> v <= hd v l -> ascending (v :: l).
Proof. destruct l as [|b rest]; cbn; [auto|]. intros; split; [lia|auto]. Qed.

Lemma cd_steady_step (lo : Z) (c : t) (e : event) :
  cd_wf c -> cd_steady lo c -> cd_counting e = true -> cd_monotone lo [e] ->
  cd_steady (cd_clock lo e) (step c e).
Proof.
  intros W (D & V & P & A) K M. unfold cd_steady.
  assert (St : forall now, lo <= now -> cd_steady now (start now c)).
  { intros now L. unfold cd_steady, start.
    destruct (isRunning c) eqn:R; cbn [orb].
    - rewrite R. repeat split; auto. intros _. specialize (A eq_refl). lia.
    - destruct (remainingTime c <=? 0); cbn.
      + rewrite R. repeat split; auto. discriminate.
      + repeat split; auto. intros _. lia. }
  assert (Pa : forall now, cd_steady now (pause c)).
  { intros now. unfold cd_steady, pause. destruct (isRunning c) eqn:R; cbn.
    - repeat split; auto. discriminate.
    - rewrite R. repeat split; auto. discriminate. }
  destruct e; cbn [step cd_clock]; cbn in M; try discriminate K.
  - apply St. lia.
  - apply Pa.
  - rewrite continue_is_start. apply St. lia.
  - rewrite toggle_is_pause_or_start.
    destruct (isRunning c); [apply Pa | apply St; lia].
  - destruct (isRunning c) eqn:R.
    + rewrite cd_tick_running by assumption. specialize (A eq_refl).
      destruct (Z.lt_ge_cases now (endTime c)).
      * rewrite cd_callback_before by assumption. cbn [shown remainingTime isRunning endTime hd].
        split; [|split; [reflexivity | split; [lia | intros _; lia]]].
        apply ascending_cons; [exact D|].
        destruct (shown c) as [|b rest]; cbn in *; lia.
      * rewrite cd_callback_after by assumption. cbn [shown remainingTime isRunning endTime hd].
        split; [|split; [reflexivity | split; [lia | discriminate]]].
        apply ascending_cons; [exact D|].
        destruct (shown c) as [|b rest]; cbn in *; lia.
    + rewrite cd_tick_stopped by assumption. rewrite R.
      repeat split; auto. discriminate.
Qed.

Lemma cd_steady_run (evs : list event) (lo : Z) (c : t) :
  cd_wf c -> cd_steady lo c -> forallb cd_counting evs = true ->
  cd_monotone lo evs -> ascending (shown (run evs c)).
Proof.
  revert lo c. induction evs as [|e evs IH]; intros lo c W N K M.
  - exact (proj1 N).
  - cbn [run fold_left]. cbn [forallb] in K. apply andb_true_iff in K as [Ke K].
    assert (M1 : cd_monotone lo [e]) by (destruct e; cbn in *; tauto).
    pose proof (cd_steady_step lo c e W N Ke M1) as N'.
    apply cd_wf_step with (e := e) in W.
    apply (IH (cd_clock lo e) _ W N' K).
    destruct e; cbn in M; cbn [cd_clock]; tauto.
Qed.

End CountdownView.

(** X10.  After any history, whatever the clock and the durations
    configured, the countdown's display shows the remaining time it
    stores. *)
Theorem countdown_display_shows_remaining :
  forall text evs,
    let c := Countdown.run evs (Countdown.new text) in
    hd 0 (Countdown.shown c) = Countdown.remainingTime c.
Proof.
  intros text evs.
  assert (G : forall c0, hd 0 (Countdown.shown c0) = Countdown.remainingTime c0 ->
                hd 0 (Countdown.shown (Countdown.run evs c0))
                = Countdown.remainingTime (Countdown.run evs c0)).
  { induction evs as [|e evs IH]; intros c0 H; [exact H|].
    cbn. apply IH. now apply cd_view_step. }
  apply G. reflexivity.
Qed.

(** X11.  The countdown's button does one of two things, whatever its
    caption: on a running countdown it pauses, otherwise it does what
    [start()] does; and [continueCountdown()] is [start()]. *)
Theorem countdown_button_pauses_or_starts :
  forall now c,
    Countdown.continueCountdown now c = Countdown.start now c
    /\ Countdown.toggleStartPauseContinue now c
       = if Countdown.isRunning c then Countdown.pause c
         else Countdown.start now c.
Proof.
  intros now c. split;
    [apply continue_is_start | apply toggle_is_pause_or_start].
Qed.

(** X12.  Configured with [ms >= 0] while it is not running, and not
    configured again, a countdown under a monotone clock always holds a
    remaining time between 0 and its configured duration, itself at most
    [ms], whatever is started, paused, continued, ticked, cleared or
    reset. *)
Theorem countdown_remaining_is_bounded :
  forall text before ms lo evs,
    let c := Countdown.run before (Countdown.new text) in
    Countdown.isRunning c = false ->
    0 <= ms ->
    forallb cd_no_set evs = true ->
    cd_monotone lo evs ->
    let c' := Countdown.run evs (Countdown.setInitialTime ms c) in
    0 <= Countdown.remainingTime c' <= Countdown.initialTimeMs c'
    /\ Countdown.initialTimeMs c' <= ms.
Proof.
  intros text before ms lo evs c R Hms K M c'.
  assert (W : cd_wf (Countdown.setInitialTime ms c))
    by (apply cd_wf_setInitialTime, cd_wf_run, cd_wf_new).
  destruct (cd_bounded_run evs ms lo _ W) as (lo' & B & T & _); auto.
  unfold cd_bounded. cbn. rewrite R.
  split; [lia|]. split; [lia|discriminate].
Qed.

Lemma countdown_remaining_is_bounded_witness :
  let evs := [Countdown.Start 0; Countdown.Tick 10; Countdown.Pause 12;
              Countdown.Clear; Countdown.Toggle 50; Countdown.Tick 2000] in
  let c' := Countdown.run evs
              (Countdown.setInitialTime 1500 (Countdown.new "Start")) in
  Countdown.shown c' = [0; 1500; 1490; 1500]
  /\ 0 <= Countdown.remainingTime c' <= Countdown.initialTimeMs c'.
Proof.
  intros evs c'. split; [reflexivity|].
  assert (H0 : 0 <= 1500) by lia.
  assert (M : cd_monotone 0 evs) by (cbn; lia).
  exact (proj1 (countdown_remaining_is_bounded "Start" [] 1500 0 evs
                  eq_refl H0 eq_refl M)).
Defined.

(** X13.  A countdown never counts up: configured with [ms >= 0] and then
    only started, paused, continued and ticked under a monotone clock, the
    values it shows never increase, across pauses and resumptions too. *)
Theorem countdown_never_counts_up :
  forall text ms lo evs,
    0 <= ms ->
    forallb cd_counting evs = true ->
    cd_monotone lo evs ->
    ascending (Countdown.shown
                 (Countdown.run evs
                    (Countdown.setInitialTime ms (Countdown.new text)))).
Proof.
  intros text ms lo evs Hms K M.
  apply cd_steady_run with (lo := lo); [reflexivity | | exact K | exact M].
  unfold cd_steady. cbn. repeat split; auto. discriminate.
Qed.

Lemma countdown_never_counts_up_witness :
  let evs := [Countdown.Start 0; Countdown.Tick 10; Countdown.Pause 12;
              Countdown.Continue 500; Countdown.Tick 520; Countdown.Tick 9000] in
  Countdown.shown (Countdown.run evs
                     (Countdown.setInitialTime 1500 (Countdown.new "Start")))
  = [0; 1470; 1490; 1500]
  /\ ascending [0; 1470; 1490; 1500].
Proof.
  intros evs. split; [reflexivity|].
  assert (H0 : 0 <= 1500) by lia.
  assert (M : cd_monotone 0 evs) by (cbn; lia).
  exact (countdown_never_counts_up "Start" 1500 0 evs H0 eq_refl M).
Defined.

(** X14.  After any history [reset()] leaves the countdown stopped and
    Idle, with both durations at zero, zero on the display and no interval
    registered; it cannot be started again before it is configured:
    [start()], [continueCountdown()] and the button then change nothing. *)
Theorem countdown_reset_disarms :
  forall text evs,
    let c := Countdown.reset (Countdown.run evs (Countdown.new text)) in
    Countdown.initialTimeMs c = 0
    /\ Countdown.remainingTime c = 0
    /\ hd 1 (Countdown.shown c) = 0
    /\ Countdown.isRunning c = false
    /\ Countdown.state c = Idle
    /\ Scheduler.live (Countdown.sched c) = []
    /\ (forall now, Countdown.start now c = c)
    /\ (forall now, Countdown.continueCountdown now c = c)
    /\ (forall now, Countdown.toggleStartPauseContinue now c = c).
Proof.
  intros text evs c.
  set (c0 := Countdown.run evs (Countdown.new text)) in *.
  assert (W : cd_wf (Countdown.pause c0))
    by (apply cd_wf_pause, cd_wf_run, cd_wf_new).
  assert (R : Countdown.isRunning (Countdown.pause c0) = false)
    by (unfold Countdown.pause; destruct (Countdown.isRunning c0) eqn:E;
        [reflexivity | exact E]).
  unfold cd_wf in W. rewrite R in W.
  assert (S : forall now, Countdown.start now c = c).
  { intros now. unfold Countdown.start, c, Countdown.reset. cbn. now rewrite R. }
  subst c. unfold Countdown.state, Countdown.reset in *. cbn in *. rewrite R.
  repeat split; auto.
  - intros now. rewrite continue_is_start. apply S.
  - intros now. rewrite toggle_is_pause_or_start. cbn. rewrite R. apply S.
Qed.

(** X15.  Time spent paused does not count.  A countdown with [r > 0]
    remaining, started at [t0], ticked at [a] before its deadline, paused,
    continued at any instant [t1] and ticked at [b] before its new deadline
    [t1 + (t0 + r - a)] holds [r - (a - t0) - (b - t1)]: what ran off is the
    time to the tick of the first interval plus the time to the tick of the
    second. *)
Theorem countdown_pause_gap_does_not_count :
  forall text evs t0 a p t1 b,
    let c := Countdown.run evs (Countdown.new text) in
    let r := Countdown.remainingTime c in
    Countdown.isRunning c = false ->
    0 < r ->
    a < t0 + r ->
    b < t1 + (t0 + r - a) ->
    let c' := Countdown.run
                [Countdown.Start t0; Countdown.Tick a; Countdown.Pause p;
                 Countdown.Continue t1; Countdown.Tick b] c in
    Countdown.remainingTime c' = r - (a - t0) - (b - t1)
    /\ Countdown.endTime c' = t1 + (t0 + r - a)
    /\ Countdown.isRunning c' = true
    /\ (List.length (Scheduler.live (Countdown.sched c')) = 1)%nat.
Proof.
  intros text evs t0 a p t1 b c r R Hr Ha Hb c'.
  assert (W : cd_wf c) by (apply cd_wf_run, cd_wf_new).
  assert (L : Scheduler.live (Countdown.sched c) = [])
    by (unfold cd_wf in W; now rewrite R in W).
  set (f := Scheduler.fresh (Countdown.sched c)) in *.
  set (c1 := Countdown.start t0 c).
  assert (E1 : c1 = Countdown.mk (Some f) (Countdown.initialTimeMs c) r (t0 + r)
                      true "Pause" (Countdown.shown c) (Scheduler.mk [f] (S f))).
  { unfold c1, Countdown.start. rewrite R. cbn [orb]. fold r.
    destruct (Z.leb_spec r 0); [lia|]. cbn. now rewrite L. }
  set (c2 := Countdown.tick a c1).
  assert (E2 : c2 = Countdown.mk (Some f) (Countdown.initialTimeMs c)
                      (t0 + r - a) (t0 + r) true "Pause"
                      ((t0 + r - a) :: Countdown.shown c) (Scheduler.mk [f] (S f))).
  { unfold c2. rewrite cd_tick_running;
      [|rewrite E1; unfold cd_wf; cbn; eauto | now rewrite E1].
    rewrite cd_callback_before by (rewrite E1; cbn; lia).
    rewrite E1. reflexivity. }
  set (c3 := Countdown.pause c2).
  assert (E3 : c3 = Countdown.mk (Some f) (Countdown.initialTimeMs c)
                      (t0 + r - a) (t0 + r) false "Continue"
                      ((t0 + r - a) :: Countdown.shown c) (Scheduler.mk [] (S f))).
  { unfold c3. rewrite E2. unfold Countdown.pause. cbn.
    now rewrite Nat.eqb_refl. }
  set (c4 := Countdown.start t1 c3).
  assert (E4 : c4 = Countdown.mk (Some (S f)) (Countdown.initialTimeMs c)
                      (t0 + r - a) (t1 + (t0 + r - a)) true "Pause"
                      ((t0 + r - a) :: Countdown.shown c)
                      (Scheduler.mk [S f] (S (S f)))).
  { unfold c4. rewrite E3. unfold Countdown.start. cbn.
    destruct (Z.leb_spec (t0 + r - a) 0); [lia|]. reflexivity. }
  assert (E5 : c' = Countdown.mk (Some (S f)) (Countdown.initialTimeMs c)
                      (t1 + (t0 + r - a) - b) (t1 + (t0 + r - a)) true "Pause"
                      ((t1 + (t0 + r - a) - b) :: (t0 + r - a) :: Countdown.shown c)
                      (Scheduler.mk [S f] (S (S f)))).
  { unfold c'. cbn [Countdown.run fold_left Countdown.step].
    rewrite continue_is_start. fold c1 c2 c3 c4.
    rewrite cd_tick_running;
      [|rewrite E4; unfold cd_wf; cbn; eauto | now rewrite E4].
    rewrite cd_callback_before by (rewrite E4; cbn; lia).
    rewrite E4. reflexivity. }
  rewrite E5. cbn. split; [lia|]. repeat split.
Qed.

Lemma countdown_pause_gap_does_not_count_witness :
  let c := Countdown.setInitialTime 5000 (Countdown.new "Start") in
  Countdown.isRunning c = false
  /\ Countdown.remainingTime
       (Countdown.run [Countdown.Start 0; Countdown.Tick 1000;
                       Countdown.Pause 1005; Countdown.Continue 60000;
                       Countdown.Tick 60500] c) = 3500.
Proof.
  intros c. split; [reflexivity|].
  assert (Hr : 0 < 5000) by lia.
  assert (Ha : 1000 < 0 + 5000) by lia.
  assert (Hb : 60500 < 60000 + (0 + 5000 - 1000)) by lia.
  exact (proj1 (countdown_pause_gap_does_not_count "Start"
                  [Countdown.SetInitial 5000] 0 1000 1005 60000 60500
                  eq_refl Hr Ha Hb)).
Defined.

(** ** The router *)

Section RouterFacts.

Import Router.

Lemma has_add (x c : string) (l : classList) :
  has x (add c l) = (String.eqb x c || has x l).
Proof.
  unfold add, has. destruct (existsb (String.eqb c) l) eqn:E.
  - destruct (String.eqb_spec x c) as [->|N]; [now rewrite E|reflexivity].
  - rewrite existsb_app. cbn. rewrite orb_false_r. apply orb_comm.
Qed.

Lemma has_remove (x c : string) (l : classList) :
  has x (remove c l) = (negb (String.eqb x c) && has x l).
Proof.
  unfold remove, has. induction l as [|y l IH]; cbn; [now rewrite andb_false_r|].
  destruct (String.eqb_spec y c) as [->|N]; cbn.
  - rewrite IH. destruct (String.eqb_spec x c) as [->|N']; cbn; [reflexivity|].
    destruct (String.eqb_spec x c); [contradiction|reflexivity].
  - rewrite IH. destruct (String.eqb_spec x y) as [->|N']; cbn.
    + destruct (String.eqb_spec y c); [contradiction|reflexivity].
    + reflexivity.
Qed.

Lemma own_put_same (id : string) (cl : classList) (l : list (string * classList)) :
  own id l <> None -> own id (put id cl l) = Some cl.
Proof.
  induction l as [|[k old] l IH]; cbn; [congruence|].
  destruct (String.eqb_spec k id) as [->|N]; cbn.
  - now rewrite String.eqb_refl.
  - intros H. destruct (String.eqb_spec k id); [contradiction|]. now apply IH.
Qed.

Lemma own_put_other (id id' : string) (cl : classList)
      (l : list (string * classList)) :
  id' <> id -> own id' (put id cl l) = own id' l.
Proof.
  intros N. induction l as [|[k old] l IH]; cbn; [reflexivity|].
  destruct (String.eqb_spec k id) as [->|Nk]; cbn.
  - destruct (String.eqb_spec id id'); [congruence|reflexivity].
  - destruct (String.eqb_spec k id'); [reflexivity|exact IH].
Qed.

Lemma own_put_none (id id' : string) (cl : classList)
      (l : list (string * classList)) :
  own id' l = None -> own id' (put id cl l) = None.
Proof.
  destruct (String.eqb_spec id' id) as [->|N].
  - induction l as [|[k old] l IH]; cbn; [reflexivity|].
    destruct (String.eqb_spec k id) as [->|Nk]; cbn; [discriminate|].
    destruct (String.eqb_spec k id); [contradiction|exact IH].
  - intros H. now rewrite own_put_other.
Qed.

Lemma selection_not_inherited :
  existsb (String.eqb "selection-screen") Object_prototype = false.
Proof. reflexivity. Qed.

(** On a sound router the current member is never an inherited one. *)
Lemma current_not_inherited (r : t) :
  router_ok r -> get (currentScreenId r) r <> Some Inherited.
Proof.
  intros (_ & [E|E] & _); unfold get.
  - destruct (own (currentScreenId r) (screens r)); [discriminate|].
    rewrite E, selection_not_inherited. discriminate.
  - destruct (own (currentScreenId r) (screens r)); [discriminate|congruence].
Qed.

(** Case analysis on a successful first half of [showScreen]. *)
Ltac hide_cases H :=
  unfold hideCurrent in H;
  match type of H with
  | context [String.eqb (currentScreenId ?r) ""] =>
      destruct (String.eqb_spec (currentScreenId r) "") as [?E0|?N0]
  end;
  match type of H with
  | context [String.eqb (currentScreenId ?r) ?id] =>
      destruct (String.eqb_spec (currentScreenId r) id) as [?E|?N]
  end;
  cbn [negb andb] in H;
  [injection H as <- | injection H as <- | injection H as <- |];
  [ | | |
    unfold get in H;
    match type of H with
    | context [own (currentScreenId ?r) (screens ?r)] =>
        destruct (own (currentScreenId r) (screens r)) as [?cl|] eqn:?O
    end;
    [injection H as <- |
     match type of H with
     | context [existsb ?f ?l] => destruct (existsb f l); [discriminate H|]
     end; injection H as <-] ].

Lemma hideCurrent_defined (id : string) (r : t) :
  router_ok r -> hideCurrent id r <> None.
Proof.
  intros OK. pose proof (current_not_inherited r OK) as NI.
  unfold hideCurrent.
  destruct (_ && _); [|discriminate].
  destruct (get (currentScreenId r) r) as [[cl|]|]; congruence.
Qed.

Lemma hideCurrent_current (id : string) (r r1 : t) :
  hideCurrent id r = Some r1 -> currentScreenId r1 = currentScreenId r.
Proof. intros H. hide_cases H; reflexivity. Qed.

Lemma hideCurrent_others (id x : string) (r r1 : t) :
  hideCurrent id r = Some r1 ->
  x <> currentScreenId r \/ x = id ->
  own x (screens r1) = own x (screens r).
Proof.
  intros H Hx. hide_cases H; try reflexivity.
  cbn [screens]. apply own_put_other. destruct Hx as [Hx|Hx]; congruence.
Qed.

Lemma hideCurrent_keys (id x : string) (r r1 : t) :
  hideCurrent id r = Some r1 ->
  own x (screens r) = None -> own x (screens r1) = None.
Proof.
  intros H Hx. hide_cases H; try assumption.
  cbn [screens]. now apply own_put_none.
Qed.

Lemma is_active_has (x : string) (r : t) (cl : classList) :
  own x (screens r) = Some cl -> is_active x r = has "active" cl.
Proof. unfold is_active. now intros ->. Qed.

Lemma is_hidden_has (x : string) (r : t) (cl : classList) :
  own x (screens r) = Some cl -> is_hidden x r = has "hidden" cl.
Proof. unfold is_hidden. now intros ->. Qed.

(** After the first half of [showScreen] no screen but the target can be
    active. *)
Lemma hideCurrent_inactive (id x : string) (r r1 : t) :
  router_ok r -> hideCurrent id r = Some r1 ->
  is_active x r1 = true -> x = id.
Proof.
  intros (A & C & Z) H Hx. hide_cases H.
  - apply A in Hx. congruence.
  - exfalso. destruct C as [C|C]; [rewrite E0 in C; discriminate C|].
    rewrite E0 in C. contradiction.
  - apply A in Hx. congruence.
  - exfalso. unfold is_active in Hx. cbn [screens] in Hx.
    destruct (String.eqb_spec x (currentScreenId r)) as [->|Nx].
    + rewrite own_put_same in Hx by congruence.
      fold (has "active" (add "hidden" (remove "active" cl))) in Hx.
      rewrite has_add, has_remove in Hx. cbn in Hx. discriminate.
    + rewrite own_put_other in Hx by exact Nx.
      apply Nx, A. exact Hx.
  - exfalso. pose proof (A x Hx) as Ex. unfold is_active in Hx.
    rewrite Ex, O in Hx. discriminate.
Qed.

(** The current screen, when it is another one, ends up hidden. *)
Lemma hideCurrent_hidden (id : string) (r r1 : t) :
  router_ok r -> hideCurrent id r = Some r1 ->
  currentScreenId r <> id ->
  own (currentScreenId r) (screens r) <> None ->
  is_hidden (currentScreenId r) r1 = true
  /\ is_active (currentScreenId r) r1 = false.
Proof.
  intros (A & C & Z) H Hn Ho. hide_cases H; try contradiction.
  - rewrite E0 in Ho. contradiction.
  - unfold is_hidden, is_active. cbn [screens].
    rewrite own_put_same by congruence.
    fold (has "hidden" (add "hidden" (remove "active" cl))).
    fold (has "active" (add "hidden" (remove "active" cl))).
    rewrite !has_add, !has_remove. split; reflexivity.
Qed.

Lemma showScreen_ok (id : string) (r : t) : router_ok r -> router_ok (showScreen id r).
Proof.
  intros OK. unfold showScreen.
  destruct (get id r) as [mb|] eqn:G; [|exact OK].
  destruct (hideCurrent id r) as [r1|] eqn:H;
    [|now apply hideCurrent_defined in H].
  pose proof (hideCurrent_current _ _ _ H) as C1.
  pose proof (hideCurrent_others id id _ _ H (or_intror eq_refl)) as O1.
  destruct OK as (A & C & Z).
  assert (Z1 : own "" (screens r1) = None) by (eapply hideCurrent_keys; eauto).
  unfold get in *. rewrite O1.
  destruct (own id (screens r)) as [cl|] eqn:O.
  - unfold router_ok. cbn [currentScreenId screens]. split; [|split].
    + intros x Hx. destruct (String.eqb_spec x id) as [->|Nx]; [reflexivity|].
      unfold is_active in Hx. cbn [screens] in Hx.
      rewrite own_put_other in Hx by exact Nx.
      exfalso. apply Nx.
      apply (hideCurrent_inactive id x r r1); [repeat split; auto | exact H |].
      exact Hx.
    + right. rewrite own_put_same; congruence.
    + apply own_put_none. exact Z1.
  - destruct (existsb (String.eqb id) Object_prototype) eqn:P; [|discriminate].
    unfold router_ok. rewrite C1. split; [|split].
    + intros x Hx. exfalso.
      assert (Ex : x = id)
        by (apply (hideCurrent_inactive id x r r1); [repeat split; auto | exact H | exact Hx]).
      unfold is_active in Hx. subst x. rewrite O1 in Hx. discriminate.
    + destruct C as [C|C]; [now left|right].
      intros Hn. apply C.
      destruct (own (currentScreenId r) (screens r)) eqn:Oc; [|reflexivity].
      exfalso. clear -H Hn Oc. hide_cases H; try congruence.
      cbn [screens] in Hn. rewrite own_put_same in Hn; congruence.
    + exact Z1.
Qed.

Lemma shows_ok (ids : list string) (r : t) : router_ok r -> router_ok (shows r ids).
Proof.
  revert r. induction ids as [|id ids IH]; intros r OK; [exact OK|].
  cbn. apply IH. now apply showScreen_ok.
Qed.

End RouterFacts.

Section RouterStart.

Import Router.

(** A table of screens as the markup may give it: no screen has the empty
    id, and no screen other than the selection screen is active. *)
Lemma new_ok (table : list (string * classList)) (r0 : t) :
  new table = Some r0 ->
  own "" table = None ->
  (forall id cl, own id table = Some cl -> id <> "selection-screen"%string ->
                 has "active" cl = false) ->
  router_ok r0.
Proof.
  intros H Z A. unfold new in H.
  assert (E : r0 = showScreen "selection-screen" (mk table "selection-screen"))
    by (destruct table; [discriminate | now injection H as <-]).
  rewrite E. apply showScreen_ok. split; [|split].
  - intros id Hid. cbn [currentScreenId].
    destruct (String.eqb_spec id "selection-screen") as [->|N]; [reflexivity|].
    unfold is_active in Hid. cbn [screens] in Hid.
    destruct (own id table) as [cl|] eqn:O; [|discriminate].
    fold (has "active" cl) in Hid. rewrite (A id cl O N) in Hid. discriminate.
  - now left.
  - exact Z.
Qed.

End RouterStart.

(** X16.  Only the current screen is ever active.  If the table the router
    is built on has no screen under the empty id and no active screen but,
    possibly, the selection screen, then after any sequence of [showScreen]
    calls, with known, unknown or inherited ids, every active screen is the
    current one. *)
Theorem router_only_current_is_active :
  forall table r0 ids,
    Router.new table = Some r0 ->
    Router.own "" table = None ->
    (forall id cl, Router.own id table = Some cl ->
                   id <> "selection-screen"%string -> has "active" cl = false) ->
    forall id, Router.is_active id (Router.shows r0 ids) = true ->
               id = Router.currentScreenId (Router.shows r0 ids).
Proof.
  intros table r0 ids H Z A.
  pose proof (shows_ok ids r0 (new_ok table r0 H Z A)) as OK.
  exact (proj1 OK).
Qed.

(** X17.  What [showScreen] does on such a router.  For the id of a screen
    of the table: that screen becomes the current one, is active and not
    hidden, no other screen is active, the screen that was current (if it is
    another one of the table) is hidden, and the remaining screens keep
    their classes.  For an id that is neither in the table nor inherited:
    nothing changes. *)
Theorem router_showScreen_switches :
  forall table r0 ids id,
    Router.new table = Some r0 ->
    Router.own "" table = None ->
    (forall x cl, Router.own x table = Some cl ->
                  x <> "selection-screen"%string -> has "active" cl = false) ->
    let r := Router.shows r0 ids in
    let r' := Router.showScreen id r in
    (Router.own id (Router.screens r) <> None ->
       Router.currentScreenId r' = id
       /\ Router.is_active id r' = true
       /\ Router.is_hidden id r' = false
       /\ (forall x, x <> id -> Router.is_active x r' = false)
       /\ (Router.currentScreenId r <> id ->
           Router.own (Router.currentScreenId r) (Router.screens r) <> None ->
           Router.is_hidden (Router.currentScreenId r) r' = true)
       /\ (forall x, x <> id -> x <> Router.currentScreenId r ->
             Router.own x (Router.screens r') = Router.own x (Router.screens r)))
    /\ (Router.get id r = None -> r' = r).
Proof.
  intros table r0 ids id H Z A r r'.
  pose proof (shows_ok ids r0 (new_ok table r0 H Z A)) as OK. fold r in OK.
  split.
  - intros Ho.
    pose proof (showScreen_ok id r OK) as OK'. fold r' in OK'.
    destruct (Router.own id (Router.screens r)) as [cl|] eqn:O; [|congruence].
    destruct (Router.hideCurrent id r) as [r1|] eqn:Hh;
      [|now apply hideCurrent_defined in Hh].
    pose proof (hideCurrent_others id id _ _ Hh (or_intror eq_refl)) as O1.
    assert (E : r' = Router.mk
                       (Router.put id
                          (Router.add "active" (Router.remove "hidden" cl))
                          (Router.screens r1)) id).
    { unfold r', Router.showScreen, Router.get. now rewrite O, Hh, O1, O. }
    assert (P : Router.own id (Router.screens r')
                = Some (Router.add "active" (Router.remove "hidden" cl))).
    { rewrite E. cbn [Router.screens]. apply own_put_same. congruence. }
    split; [now rewrite E|].
    split; [rewrite (is_active_has _ _ _ P), has_add; reflexivity|].
    split; [rewrite (is_hidden_has _ _ _ P), has_add, has_remove; reflexivity|].
    split.
    { intros x Nx. destruct (Router.is_active x r') eqn:Ax; [|reflexivity].
      apply (proj1 OK') in Ax. rewrite E in Ax. cbn in Ax. contradiction. }
    split.
    { intros Nc Oc.
      destruct (hideCurrent_hidden id r r1 OK Hh Nc Oc) as [Hid _].
      unfold Router.is_hidden in *. rewrite E. cbn [Router.screens].
      rewrite own_put_other by exact Nc. exact Hid. }
    intros x Nx Nc. rewrite E. cbn [Router.screens].
    rewrite own_put_other by exact Nx.
    apply (hideCurrent_others id x _ _ Hh). now left.
  - intros G. unfold r', Router.showScreen. now rewrite G.
Qed.

Section RouterExample.

Import Router.

(** A table shaped like the bootstrap's, with only the three forms hidden. *)
Lemma example_table_ok :
  let table := [("selection-screen", ["screen"]);
                ("stopwatch-form", ["screen"; "hidden"]);
                ("countdown-input-form", ["screen"; "hidden"]);
                ("countdown-display-form", ["screen"; "hidden"])]%string in
  own "" table = None
  /\ (forall id cl, own id table = Some cl -> id <> "selection-screen"%string ->
                    has "active" cl = false).
Proof.
  intros table. split; [reflexivity|].
  intros id cl H N. unfold table in H. cbn [own] in H.
  repeat match type of H with
         | context [String.eqb ?a id] =>
             destruct (String.eqb_spec a id);
             [try congruence; injection H as <-; reflexivity|]
         end.
  discriminate H.
Qed.

End RouterExample.

Lemma router_only_current_is_active_witness :
  let table := [("selection-screen", ["screen"]);
                ("stopwatch-form", ["screen"; "hidden"]);
                ("countdown-input-form", ["screen"; "hidden"]);
                ("countdown-display-form", ["screen"; "hidden"])]%string in
  let r0 := Router.showScreen "selection-screen"
              (Router.mk table "selection-screen") in
  let r := Router.shows r0 ["stopwatch-form"; "nowhere"; "toString";
                            "countdown-input-form"]%string in
  Router.new table = Some r0
  /\ Router.is_active "countdown-input-form" r = true
  /\ "countdown-input-form"%string = Router.currentScreenId r.
Proof.
  intros table r0 r.
  assert (N : Router.new table = Some r0) by reflexivity.
  assert (A : Router.is_active "countdown-input-form" r = true)
    by (vm_compute; reflexivity).
  split; [exact N|]. split; [exact A|].
  exact (router_only_current_is_active table r0 _ N
           (proj1 example_table_ok) (proj2 example_table_ok) _ A).
Defined.

Lemma router_showScreen_switches_witness :
  let table := [("selection-screen", ["screen"]);
                ("stopwatch-form", ["screen"; "hidden"]);
                ("countdown-input-form", ["screen"; "hidden"]);
                ("countdown-display-form", ["screen"; "hidden"])]%string in
  let r0 := Router.showScreen "selection-screen"
              (Router.mk table "selection-screen") in
  Router.new table = Some r0
  /\ Router.own "stopwatch-form" (Router.screens r0) <> None
  /\ Router.currentScreenId (Router.showScreen "stopwatch-form" r0)
     = "stopwatch-form"%string
  /\ Router.get "nowhere" r0 = None
  /\ Router.showScreen "nowhere" r0 = r0.
Proof.
  intros table r0.
  assert (N : Router.new table = Some r0) by reflexivity.
  assert (O : Router.own "stopwatch-form" (Router.screens r0) <> None)
    by (vm_compute; discriminate).
  assert (G : Router.get "nowhere" r0 = None) by (vm_compute; reflexivity).
  split; [exact N|]. split; [exact O|].
  split.
  - exact (proj1 (proj1 (router_showScreen_switches table r0 [] "stopwatch-form"
                           N (proj1 example_table_ok) (proj2 example_table_ok)) O)).
  - split; [exact G|].
    exact (proj2 (router_showScreen_switches table r0 [] "nowhere"
                    N (proj1 example_table_ok) (proj2 example_table_ok)) G).
Defined.

(** ** The page *)

Section PageFacts.

Lemma initial_fire (h : nat) (now : Z) (c : Countdown.t) :
  Countdown.initialTimeMs (Countdown.fire h now c) = Countdown.initialTimeMs c.
Proof.
  unfold Countdown.fire. destruct (Scheduler.is_live h (Countdown.sched c));
    [|reflexivity].
  unfold Countdown.callback.
  cbn [Countdown.set_remainingTime Countdown.remainingTime].
  destruct (Countdown.endTime c - now <=? 0); [|reflexivity].
  unfold Countdown.pause. cbn. destruct (Countdown.isRunning c); reflexivity.
Qed.

Lemma initial_tick (now : Z) (c : Countdown.t) :
  Countdown.initialTimeMs (Countdown.tick now c) = Countdown.initialTimeMs c.
Proof.
  unfold Countdown.tick. generalize (rev (Scheduler.live (Countdown.sched c))).
  intros hs. revert c. induction hs as [|h hs IH]; intros c; [reflexivity|].
  cbn. rewrite IH. apply initial_fire.
Qed.

Lemma initial_toggle (now : Z) (c : Countdown.t) :
  Countdown.initialTimeMs (Countdown.toggleStartPauseContinue now c)
  = Countdown.initialTimeMs c.
Proof.
  rewrite toggle_is_pause_or_start. unfold Countdown.pause, Countdown.start.
  destruct (Countdown.isRunning c); cbn; [reflexivity|].
  destruct (Countdown.remainingTime c <=? 0); reflexivity.
Qed.

Lemma initial_clear (c : Countdown.t) :
  Countdown.initialTimeMs (Countdown.clear c) = Countdown.initialTimeMs c.
Proof.
  unfold Countdown.clear, Countdown.pause.
  destruct (Countdown.isRunning c); reflexivity.
Qed.

(** What every page reached from the bootstrap satisfies. *)
Lemma page_step_ok (p : Page.t) (e : Page.event) :
  sw_wf (Page.stopwatch p) /\ cd_wf (Page.countdown p)
  /\ (Input.inputMs (Page.input p) mod 1000 = 0
      /\ Input.inputMs (Page.input p) <= 86399000)%N
  /\ keypad_duration (Countdown.initialTimeMs (Page.countdown p)) ->
  let p' := Page.step p e in
  sw_wf (Page.stopwatch p') /\ cd_wf (Page.countdown p')
  /\ (Input.inputMs (Page.input p') mod 1000 = 0
      /\ Input.inputMs (Page.input p') <= 86399000)%N
  /\ keypad_duration (Countdown.initialTimeMs (Page.countdown p')).
Proof.
  intros (Ws & Wc & Hi & Hk) p'. subst p'.
  assert (Z0 : (0 mod 1000 = 0 /\ 0 <= 86399000)%N) by (split; [reflexivity|lia]).
  destruct e; cbn [Page.step].
  - cbn [Page.stopwatch Page.countdown Page.input].
    split; [now apply sw_wf_clear|tauto].
  - cbn [Page.stopwatch Page.countdown Page.input].
    split; [exact Ws|]. split; [exact Wc|]. split; [exact Z0|exact Hk].
  - cbn [Page.stopwatch Page.countdown Page.input].
    split; [apply (sw_wf_step _ (Stopwatch.Toggle now) Ws)|tauto].
  - cbn [Page.stopwatch Page.countdown Page.input].
    split; [now apply sw_wf_clear|tauto].
  - cbn [Page.stopwatch Page.countdown Page.input].
    split; [exact Ws|]. split; [exact Wc|]. split; [|exact Hk].
    now apply press_value.
  - unfold Input.triggerSet.
    destruct (N.ltb_spec 0 (Input.inputMs (Page.input p))) as [Hp|Hz];
      cbn [Page.stopwatch Page.countdown Page.input].
    + split; [exact Ws|]. split; [now apply cd_wf_setInitialTime|].
      split; [exact Hi|]. cbn. right.
      destruct Hi as [Hm Hb].
      assert (Hz : Z.of_N (Input.inputMs (Page.input p)) mod 1000 = 0)
        by (change 1000 with (Z.of_N 1000); rewrite <- N2Z.inj_mod, Hm;
            reflexivity).
      split; [|exact Hz].
      split; [|lia].
      assert (0 < Z.of_N (Input.inputMs (Page.input p))) by lia.
      Z.to_euclidean_division_equations. lia.
    + tauto.
  - cbn [Page.stopwatch Page.countdown Page.input].
    split; [exact Ws|].
    split; [apply (cd_wf_step _ (Countdown.Toggle now) Wc)|].
    split; [exact Hi|]. now rewrite initial_toggle.
  - cbn [Page.stopwatch Page.countdown Page.input].
    split; [exact Ws|]. split; [now apply cd_wf_clear|].
    split; [exact Hi|]. now rewrite initial_clear.
  - unfold Page.screenChange.
    destruct (Page.targetScreenId target =? "selection-screen")%string;
      cbn [Page.stopwatch Page.countdown Page.input].
    + split; [now apply sw_wf_clear|]. split; [now apply cd_wf_reset|].
      split; [exact Z0|]. left. reflexivity.
    + tauto.
  - cbn [Page.stopwatch Page.countdown Page.input].
    split; [now apply sw_wf_tick|tauto].
  - cbn [Page.stopwatch Page.countdown Page.input].
    split; [exact Ws|]. split; [now apply cd_wf_tick|].
    split; [exact Hi|]. now rewrite initial_tick.
Qed.

Lemma page_run_ok (evs : list Page.event) (p : Page.t) :
  sw_wf (Page.stopwatch p) /\ cd_wf (Page.countdown p)
  /\ (Input.inputMs (Page.input p) mod 1000 = 0
      /\ Input.inputMs (Page.input p) <= 86399000)%N
  /\ keypad_duration (Countdown.initialTimeMs (Page.countdown p)) ->
  let p' := Page.run evs p in
  sw_wf (Page.stopwatch p') /\ cd_wf (Page.countdown p')
  /\ (Input.inputMs (Page.input p') mod 1000 = 0
      /\ Input.inputMs (Page.input p') <= 86399000)%N
  /\ keypad_duration (Countdown.initialTimeMs (Page.countdown p')).
Proof.
  revert p. induction evs as [|e evs IH]; intros p H; [exact H|].
  cbn. apply IH. now apply page_step_ok.
Qed.

Lemma page_new_ok (r : Router.t) (swText cdText : string) :
  let p := Page.new r swText cdText in
  sw_wf (Page.stopwatch p) /\ cd_wf (Page.countdown p)
  /\ (Input.inputMs (Page.input p) mod 1000 = 0
      /\ Input.inputMs (Page.input p) <= 86399000)%N
  /\ keypad_duration (Countdown.initialTimeMs (Page.countdown p)).
Proof.
  cbn. repeat split; try reflexivity; try lia. now left.
Qed.

End PageFacts.

(** X18.  Going back to the selection screen stops and empties everything.
    After any history of the page, a click on a back button whose target is
    the selection screen (or is absent or empty) leaves the stopwatch
    stopped at zero, the countdown stopped with both durations at zero, the
    keypad buffer at zero and no interval registered, whether or not the
    router knows the selection screen. *)
Theorem back_to_selection_resets_everything :
  forall r swText cdText evs target,
    Page.targetScreenId target = "selection-screen"%string ->
    let p := Page.step (Page.run evs (Page.new r swText cdText))
               (Page.Back target) in
    Stopwatch.elapsedTime (Page.stopwatch p) = 0
    /\ Stopwatch.isRunning (Page.stopwatch p) = false
    /\ Scheduler.live (Stopwatch.sched (Page.stopwatch p)) = []
    /\ Countdown.initialTimeMs (Page.countdown p) = 0
    /\ Countdown.remainingTime (Page.countdown p) = 0
    /\ Countdown.isRunning (Page.countdown p) = false
    /\ Scheduler.live (Countdown.sched (Page.countdown p)) = []
    /\ Input.inputMs (Page.input p) = 0%N.
Proof.
  intros r swText cdText evs target T p.
  destruct (page_run_ok evs _ (page_new_ok r swText cdText)) as (Ws & Wc & _).
  set (q := Page.run evs (Page.new r swText cdText)) in *.
  subst p. cbn [Page.step]. unfold Page.screenChange. rewrite T.
  change ("selection-screen" =? "selection-screen")%string with true.
  cbv iota. cbn [Page.stopwatch Page.countdown Page.input].
  apply sw_wf_pause in Ws. apply cd_wf_pause in Wc.
  assert (Rs : Stopwatch.isRunning (Stopwatch.pause (Page.stopwatch q)) = false)
    by (unfold Stopwatch.pause;
        destruct (Stopwatch.isRunning (Page.stopwatch q)) eqn:E;
        [reflexivity | exact E]).
  assert (Rc : Countdown.isRunning (Countdown.pause (Page.countdown q)) = false)
    by (unfold Countdown.pause;
        destruct (Countdown.isRunning (Page.countdown q)) eqn:E;
        [reflexivity | exact E]).
  unfold sw_wf in Ws. rewrite Rs in Ws. unfold cd_wf in Wc. rewrite Rc in Wc.
  unfold Stopwatch.reset, Stopwatch.clear, Countdown.reset. cbn.
  repeat split; auto.
Qed.

Lemma back_to_selection_resets_everything_witness :
  let p := Page.step
             (Page.run [Page.StopwatchOption; Page.StopwatchStartPause 0;
                        Page.StopwatchTick 10; Page.CountdownOption;
                        Page.Key (Input.Digit "5"); Page.SetButton;
                        Page.CountdownStartPauseContinue 20]
                (Page.new (Router.mk [] "selection-screen") "Start" "Start"))
             (Page.Back None) in
  Page.targetScreenId None = "selection-screen"%string
  /\ Stopwatch.elapsedTime (Page.stopwatch p) = 0
  /\ Countdown.isRunning (Page.countdown p) = false.
Proof.
  intros p.
  assert (T : Page.targetScreenId None = "selection-screen"%string)
    by reflexivity.
  pose proof (back_to_selection_resets_everything
                (Router.mk [] "selection-screen") "Start" "Start"
                [Page.StopwatchOption; Page.StopwatchStartPause 0;
                 Page.StopwatchTick 10; Page.CountdownOption;
                 Page.Key (Input.Digit "5"); Page.SetButton;
                 Page.CountdownStartPauseContinue 20] None T) as H.
  split; [exact T|]. split; [exact (proj1 H)|].
  exact (proj1 (proj2 (proj2 (proj2 (proj2 (proj2 H)))))).
Defined.

(** X19.  Through the page the countdown is only ever configured from the
    keypad: after any history the configured duration is zero (never set, or
    reset) or a whole number of seconds from 1 s to 23:59:59, and the keypad
    buffer is a whole number of seconds up to 23:59:59.  A Set click on an
    empty buffer configures nothing and does not change screen. *)
Theorem page_configures_keypad_durations_only :
  (forall r swText cdText evs,
     let p := Page.run evs (Page.new r swText cdText) in
     keypad_duration (Countdown.initialTimeMs (Page.countdown p))
     /\ (Input.inputMs (Page.input p) mod 1000 = 0)%N
     /\ (Input.inputMs (Page.input p) <= 86399000)%N)
  /\ (forall p,
        Input.inputMs (Page.input p) = 0%N ->
        let p' := Page.step p Page.SetButton in
        Page.router p' = Page.router p
        /\ Page.countdown p' = Page.countdown p
        /\ Page.stopwatch p' = Page.stopwatch p
        /\ Input.inputMs (Page.input p') = 0%N).
Proof.
  split.
  - intros r swText cdText evs p.
    destruct (page_run_ok evs _ (page_new_ok r swText cdText))
      as (_ & _ & [Hm Hb] & Hk).
    fold p in Hm, Hb, Hk. auto.
  - intros p H p'. subst p'. cbn [Page.step]. unfold Input.triggerSet.
    rewrite H. cbn. rewrite H. repeat split.
Qed.

Lemma page_configures_keypad_durations_only_witness :
  let p := Page.new (Router.mk [] "selection-screen") "Start" "Start" in
  Input.inputMs (Page.input p) = 0%N
  /\ Page.countdown (Page.step p Page.SetButton) = Page.countdown p.
Proof.
  intros p.
  assert (H : Input.inputMs (Page.input p) = 0%N) by reflexivity.
  split; [exact H|].
  exact (proj1 (proj2 (proj2 page_configures_keypad_durations_only p H))).
Defined.
